(** * CodeRabbit MCP server: a shallow embedding of [src/MCPServer.ts]

    The server registers four request handlers on an MCP [Server]
    (list-tools, call-tool, list-resources, read-resource).  The handlers
    are embedded here as Rocq functions over a model of the JavaScript
    values they receive; the effects they perform (reading the clock, HTTP
    requests through axios, throwing) are kept explicit in a small free
    monad whose programs can be run against any environment. *)

From Stdlib Require Import String Ascii List ZArith Lia Bool DecimalString.
Import ListNotations.
Local Open Scope list_scope.
Local Open Scope string_scope.
Set Warnings "-register-all".

(** ** Text helpers *)

(** Characters Rocq string literals cannot spell directly. *)
Definition dq : string := String "034"%char EmptyString.
Definition nl : string := String "010"%char EmptyString.
Definition backtick : string := String "096"%char EmptyString.

(** [q s] is [s] between double quotes. *)
Definition q (s : string) : string := dq ++ s ++ dq.

(** [Array.prototype.join] on already converted elements. *)
Fixpoint join (sep : string) (parts : list string) : string :=
  match parts with
  | [] => ""
  | [p] => p
  | p :: rest => p ++ sep ++ join sep rest
  end.

(** Text given line by line (the template literals of the source span many
    lines; a line break separates two lines, none follows the last). *)
Definition lines (ls : list string) : string := join nl ls.

(** [s.replace(/\n/g, by)] *)
Fixpoint replaceNewlines (by_ : string) (s : string) : string :=
  match s with
  | EmptyString => EmptyString
  | String c rest =>
      if Ascii.eqb c "010"%char then by_ ++ replaceNewlines by_ rest
      else String c (replaceNewlines by_ rest)
  end.

(** [hay.includes(needle)] *)
Fixpoint startsWith (needle hay : string) : bool :=
  match needle, hay with
  | EmptyString, _ => true
  | String a n', String b h' => Ascii.eqb a b && startsWith n' h'
  | String _ _, EmptyString => false
  end.

Fixpoint includes (needle hay : string) : bool :=
  startsWith needle hay ||
  match hay with
  | EmptyString => false
  | String _ h' => includes needle h'
  end.

Definition decimal (z : Z) : string := NilEmpty.string_of_int (Z.to_int z).

(** ** JavaScript values

    Every value the handlers receive is decoded JSON (the call arguments,
    an upstream response body) or [undefined] (a missing property, a
    missing [arguments] member).  A number is represented by the text
    ECMAScript's Number::toString gives it: the program never computes
    with a number, it only prints numbers and tests them for truthiness,
    and zero is the only falsy number JSON can produce (a literal too
    large for a double decodes to an infinity, which is truthy). *)
Inductive JsVal : Type :=
| VUndefined
| VNull
| VBool (b : bool)
| VNum (text : string)
| VStr (s : string)
| VArr (items : list JsVal)
| VObj (props : list (string * JsVal)).

Definition str := VStr.
Definition num := VNum.
Definition obj := VObj.
Definition arr := VArr.
Definition strs (l : list string) : JsVal := VArr (map VStr l).

(** Own-property lookup on a property list (insertion order, first match). *)
Fixpoint lookup (k : string) (ps : list (string * JsVal)) : JsVal :=
  match ps with
  | [] => VUndefined
  | (k', v) :: rest => if String.eqb k k' then v else lookup k rest
  end.

(** ToBoolean *)
Definition truthy (v : JsVal) : bool :=
  match v with
  | VUndefined | VNull => false
  | VBool b => b
  | VNum t => negb (String.eqb t "0")
  | VStr s => negb (String.eqb s "")
  | VArr _ | VObj _ => true
  end.

(** [a || b] *)
Definition or_else (a b : JsVal) : JsVal := if truthy a then a else b.

(** [Object.prototype.hasOwnProperty]: is [k] a key of the property list? *)
Fixpoint hasOwn (k : string) (ps : list (string * JsVal)) : bool :=
  match ps with
  | [] => false
  | (k', _) :: rest => (k =? k') || hasOwn k rest
  end.

(** ToString, as a template literal, [join] and a property key apply it;
    [None] stands for the TypeError "Cannot convert object to primitive
    value".  An array prints its elements joined by commas, [null] and
    [undefined] elements as nothing.  A plain object prints as
    [[object Object]] through the [toString] it inherits; decoded JSON
    holds no function, so an object with a member of its own called
    [toString] has no usable conversion (the inherited [valueOf] returns
    the object itself) and converting it throws. *)
Fixpoint toString (v : JsVal) : option string :=
  match v with
  | VUndefined => Some "undefined"
  | VNull => Some "null"
  | VBool true => Some "true"
  | VBool false => Some "false"
  | VNum t => Some t
  | VStr s => Some s
  | VArr xs =>
      let fix elems (l : list JsVal) : option (list string) :=
        match l with
        | [] => Some []
        | x :: r =>
            match match x with
                  | VUndefined | VNull => Some ""
                  | _ => toString x
                  end, elems r with
            | Some s, Some rest => Some (s :: rest)
            | _, _ => None
            end
        end in
      option_map (join ",") (elems xs)
  | VObj ps => if hasOwn "toString" ps then None else Some "[object Object]"
  end.

(** The text [join] gives an element. *)
Definition elementText (x : JsVal) : option string :=
  match x with
  | VUndefined | VNull => Some ""
  | _ => toString x
  end.

Fixpoint elementTexts (xs : list JsVal) : option (list string) :=
  match xs with
  | [] => Some []
  | x :: r =>
      match elementText x, elementTexts r with
      | Some s, Some rest => Some (s :: rest)
      | _, _ => None
      end
  end.

(** [xs.join(sep)] on an array's elements; [None] when an element cannot
    be converted. *)
Definition joinElems (sep : string) (xs : list JsVal) : option string :=
  option_map (join sep) (elementTexts xs).

(** The text of a value for the observers below, empty when it has none. *)
Definition shown (v : JsVal) : string :=
  match toString v with
  | Some s => s
  | None => ""
  end.

(** *** JSON.stringify(value, null, 2) *)

Definition hexDigit (n : nat) : ascii :=
  match n with
  | 0 => "0" | 1 => "1" | 2 => "2" | 3 => "3" | 4 => "4" | 5 => "5"
  | 6 => "6" | 7 => "7" | 8 => "8" | 9 => "9" | 10 => "a" | 11 => "b"
  | 12 => "c" | 13 => "d" | 14 => "e" | _ => "f"
  end%char.

Definition escapeChar (c : ascii) : string :=
  let n := nat_of_ascii c in
  if Nat.eqb n 34 then "\" ++ dq
  else if Nat.eqb n 92 then "\\"
  else if Nat.eqb n 8 then "\b"
  else if Nat.eqb n 9 then "\t"
  else if Nat.eqb n 10 then "\n"
  else if Nat.eqb n 12 then "\f"
  else if Nat.eqb n 13 then "\r"
  else if Nat.ltb n 32 then
    "\u00" ++ String (hexDigit (n / 16)) (String (hexDigit (n mod 16)) "")
  else String c "".

Fixpoint escape (s : string) : string :=
  match s with
  | EmptyString => EmptyString
  | String c rest => escapeChar c ++ escape rest
  end.

(** QuoteJSONString *)
Definition quoteJSON (s : string) : string := q (escape s).

(** Reading back the first escaped character of a text: the inverse of
    [escapeChar], used to show that quoting loses nothing. *)
Definition hexValue (c : ascii) : nat :=
  match c with
  | "0" => 0 | "1" => 1 | "2" => 2 | "3" => 3 | "4" => 4 | "5" => 5
  | "6" => 6 | "7" => 7 | "8" => 8 | "9" => 9 | "a" => 10 | "b" => 11
  | "c" => 12 | "d" => 13 | "e" => 14 | _ => 15
  end%char.

Definition unescapeHead (s : string) : option (ascii * string) :=
  match s with
  | EmptyString => None
  | String c rest =>
      if Ascii.eqb c "\"%char then
        match rest with
        | String x rest' =>
            if Ascii.eqb x "034"%char then Some ("034"%char, rest')
            else if Ascii.eqb x "\"%char then Some ("\"%char, rest')
            else if Ascii.eqb x "b"%char then Some ("008"%char, rest')
            else if Ascii.eqb x "t"%char then Some ("009"%char, rest')
            else if Ascii.eqb x "n"%char then Some ("010"%char, rest')
            else if Ascii.eqb x "f"%char then Some ("012"%char, rest')
            else if Ascii.eqb x "r"%char then Some ("013"%char, rest')
            else match rest' with
                 | String _ (String _ (String h (String l rest''))) =>
                     Some (ascii_of_nat (16 * hexValue h + hexValue l), rest'')
                 | _ => None
                 end
        | EmptyString => None
        end
      else Some (c, rest)
  end.

(** The texts of the numbers that are not finite; JSON.stringify prints
    them as [null]. *)
Definition nonFinite (text : string) : bool :=
  (text =? "Infinity") || (text =? "-Infinity") || (text =? "NaN").

(** [stringify ind v] serialises [v] at indentation [ind] with a gap of two
    spaces; [None] is JavaScript's [undefined] (what JSON.stringify returns
    for [undefined] itself).  A property whose value is [undefined] is
    left out of an object, an [undefined] element of an array prints as
    [null]. *)
Fixpoint stringify (ind : string) (v : JsVal) : option string :=
  match v with
  | VUndefined => None
  | VNull => Some "null"
  | VBool true => Some "true"
  | VBool false => Some "false"
  | VNum t => Some (if nonFinite t then "null" else t)
  | VStr s => Some (quoteJSON s)
  | VArr xs =>
      let step := ind ++ "  " in
      let fix elems (l : list JsVal) : list string :=
        match l with
        | [] => []
        | x :: r =>
            match stringify step x with
            | Some s => s
            | None => "null"
            end :: elems r
        end in
      Some match elems xs with
           | [] => "[]"
           | parts =>
               "[" ++ nl ++ step ++ join ("," ++ nl ++ step) parts
                   ++ nl ++ ind ++ "]"
           end
  | VObj ps =>
      let step := ind ++ "  " in
      let fix members (l : list (string * JsVal)) : list string :=
        match l with
        | [] => []
        | (k, x) :: r =>
            match stringify step x with
            | Some s => (quoteJSON k ++ ": " ++ s) :: members r
            | None => members r
            end
        end in
      Some match members ps with
           | [] => "{}"
           | parts =>
               "{" ++ nl ++ step ++ join ("," ++ nl ++ step) parts
                   ++ nl ++ ind ++ "}"
           end
  end.

(** [`${JSON.stringify(v, null, 2)}`] *)
Definition stringify2 (v : JsVal) : string :=
  match stringify "" v with
  | Some s => s
  | None => "undefined"
  end.

(** The two steps of serialising an object, on their own: the printed
    members (those whose value is not [undefined]) and the braces around
    them. *)
Fixpoint membersOf (step : string) (ps : list (string * JsVal)) : list string :=
  match ps with
  | [] => []
  | (k, x) :: r =>
      match stringify step x with
      | Some s => (quoteJSON k ++ ": " ++ s) :: membersOf step r
      | None => membersOf step r
      end
  end.

Definition braces (ind : string) (parts : list string) : string :=
  match parts with
  | [] => "{}"
  | _ => "{" ++ nl ++ (ind ++ "  ") ++ join ("," ++ nl ++ (ind ++ "  ")) parts
             ++ nl ++ ind ++ "}"
  end.


(** ** Effects

    What a handler can do besides computing: throw, read the clock
    ([new Date().toISOString()]) and await an axios request.  [Invoke] is a
    ghost marker the router leaves when it calls one of the six tool
    methods, so that "the handler was entered" can be read off a run. *)

Record AxiosResponse : Type := {
  status : Z;
  statusText : string;
  data : JsVal
}.

(** A thrown JavaScript value. *)
Inductive Thrown : Type :=
| JsError (message : string)
    (* an Error or TypeError: [instanceof Error], not an axios error *)
| AxiosError (message : string) (response : option AxiosResponse)
    (* [axios.isAxiosError] holds; also [instanceof Error] *)
| ThrownValue (v : JsVal).
    (* anything that is not an Error instance *)

Inductive Method : Type := GET | POST.

Record HttpRequest : Type := {
  method : Method;
  url : string;
  body : option JsVal;
  headers : list (string * string);
  timeout : option Z        (* axios [timeout] option, milliseconds *)
}.

Inductive HttpOutcome : Type :=
| Resolved (r : AxiosResponse)
| Rejected (e : Thrown).

Inductive Prog (A : Type) : Type :=
| Ret (a : A)
| Throw (e : Thrown)
| Invoke (handler : string) (k : Prog A)
| Now (k : string -> Prog A)
| Http (r : HttpRequest) (k : HttpOutcome -> Prog A).

Arguments Ret {A} a.
Arguments Throw {A} e.
Arguments Invoke {A} handler k.
Arguments Now {A} k.
Arguments Http {A} r k.

Fixpoint bind {A B : Type} (p : Prog A) (f : A -> Prog B) : Prog B :=
  match p with
  | Ret a => f a
  | Throw e => Throw e
  | Invoke h k => Invoke h (bind k f)
  | Now k => Now (fun t => bind (k t) f)
  | Http r k => Http r (fun o => bind (k o) f)
  end.

(** [try { p } catch (error) { h error }] *)
Fixpoint tryCatch {A : Type} (p : Prog A) (h : Thrown -> Prog A) : Prog A :=
  match p with
  | Ret a => Ret a
  | Throw e => h e
  | Invoke n k => Invoke n (tryCatch k h)
  | Now k => Now (fun t => tryCatch (k t) h)
  | Http r k => Http r (fun o => tryCatch (k o) h)
  end.

Declare Scope prog_scope.
Delimit Scope prog_scope with prog.
Notation "x <- p ;; k" := (bind p (fun x => k))
  (at level 61, p at next level, right associativity) : prog_scope.
Local Open Scope prog_scope.

(** [new Date().toISOString()] *)
Definition nowISO : Prog string := Now Ret.

(** [await axios.get/post(...)] *)
Definition axiosRequest (r : HttpRequest) : Prog AxiosResponse :=
  Http r (fun o => match o with
                   | Resolved resp => Ret resp
                   | Rejected e => Throw e
                   end).

(** *** Running a program

    The environment answers each clock reading and each request; the
    answer may depend on how many effects came before ([tick]). *)
Record World : Type := {
  clock : nat -> string;
  network : nat -> HttpRequest -> HttpOutcome
}.

Inductive Event : Type :=
| EvInvoke (handler : string)
| EvClock
| EvHttp (r : HttpRequest).

Inductive Completion (A : Type) : Type :=
| Returns (a : A)
| Throws (e : Thrown).
Arguments Returns {A} a.
Arguments Throws {A} e.

Record Run (A : Type) : Type := {
  outcome : Completion A;
  trace : list Event;
  ticks : nat
}.
Arguments outcome {A} _.
Arguments trace {A} _.
Arguments ticks {A} _.

Fixpoint run {A : Type} (w : World) (tick : nat) (p : Prog A) : Run A :=
  match p with
  | Ret a => {| outcome := Returns a; trace := []; ticks := tick |}
  | Throw e => {| outcome := Throws e; trace := []; ticks := tick |}
  | Invoke h k =>
      let r := run w tick k in
      {| outcome := outcome r; trace := EvInvoke h :: trace r; ticks := ticks r |}
  | Now k =>
      let r := run w (S tick) (k (clock w tick)) in
      {| outcome := outcome r; trace := EvClock :: trace r; ticks := ticks r |}
  | Http rq k =>
      let r := run w (S tick) (k (network w tick rq)) in
      {| outcome := outcome r; trace := EvHttp rq :: trace r; ticks := ticks r |}
  end.

(** The requests a run sent. *)
Fixpoint requestsOf (t : list Event) : list HttpRequest :=
  match t with
  | [] => []
  | EvHttp r :: rest => r :: requestsOf rest
  | _ :: rest => requestsOf rest
  end.

(** The tool methods a run entered. *)
Fixpoint invokedOf (t : list Event) : list string :=
  match t with
  | [] => []
  | EvInvoke h :: rest => h :: invokedOf rest
  | _ :: rest => invokedOf rest
  end.

(** *** Property access and method calls on untyped values *)

(** [error instanceof Error ? error.message : 'Unknown error'] *)
Definition errorMessage (e : Thrown) : string :=
  match e with
  | JsError m => m
  | AxiosError m _ => m
  | ThrownValue _ => "Unknown error"
  end.

Definition cannotRead (what k : string) : Thrown :=
  JsError ("Cannot read properties of " ++ what ++ " (reading '" ++ k ++ "')").

Definition notAFunction (expr : string) : Thrown :=
  JsError (expr ++ " is not a function").

Definition cannotConvert : Thrown :=
  JsError "Cannot convert object to primitive value".

(** [`${v}`]: the conversion to a string a template literal performs. *)
Definition convert (v : JsVal) : Prog string :=
  match toString v with
  | Some s => Ret s
  | None => Throw cannotConvert
  end.

(** [v.k] for the property names this program reads.  None of them is
    defined on a prototype, so on anything but [undefined] and [null] the
    result is the own property or [undefined]. *)
Definition getProp (v : JsVal) (k : string) : Prog JsVal :=
  match v with
  | VUndefined => Throw (cannotRead "undefined" k)
  | VNull => Throw (cannotRead "null" k)
  | VObj ps => Ret (lookup k ps)
  | _ => Ret VUndefined
  end.

(** [v?.k] *)
Definition getPropOpt (v : JsVal) (k : string) : JsVal :=
  match v with
  | VObj ps => lookup k ps
  | _ => VUndefined
  end.

(** ** Capability registry *)

(** The value the list-tools handler returns. *)
Definition listTools : JsVal :=
  obj [("tools", arr [
    obj [("name", str "generate_report");
         ("description", str "Generate CodeRabbit on-demand reports for specified date range");
         ("inputSchema", obj [
            ("type", str "object");
            ("properties", obj [
               ("from", obj [("type", str "string"); ("format", str "date");
                             ("description", str "Start date (YYYY-MM-DD)")]);
               ("to", obj [("type", str "string"); ("format", str "date");
                           ("description", str "End date (YYYY-MM-DD)")])]);
            ("required", strs ["from"; "to"])])];
    obj [("name", str "analyze_pull_request");
         ("description", str "Analyze a specific pull request using CodeRabbit");
         ("inputSchema", obj [
            ("type", str "object");
            ("properties", obj [
               ("repository", obj [("type", str "string");
                                   ("description", str "Repository URL or name")]);
               ("pullRequestNumber", obj [("type", str "number");
                                          ("description", str "Pull request number")]);
               ("reviewInstructions", obj [("type", str "string");
                                           ("description", str "Custom review instructions (optional)")])]);
            ("required", strs ["repository"; "pullRequestNumber"])])];
    obj [("name", str "configure_review_settings");
         ("description", str "Configure CodeRabbit review settings for a repository");
         ("inputSchema", obj [
            ("type", str "object");
            ("properties", obj [
               ("repository", obj [("type", str "string");
                                   ("description", str "Repository URL or name")]);
               ("configuration", obj [
                  ("type", str "object");
                  ("properties", obj [
                     ("pathInstructions", obj [
                        ("type", str "array");
                        ("items", obj [
                           ("type", str "object");
                           ("properties", obj [
                              ("path", obj [("type", str "string")]);
                              ("instructions", obj [("type", str "string")])])])]);
                     ("tools", obj [
                        ("type", str "object");
                        ("properties", obj [
                           ("astGrep", obj [
                              ("type", str "object");
                              ("properties", obj [
                                 ("essentialRules", obj [("type", str "boolean")]);
                                 ("ruleDirs", obj [("type", str "array");
                                                   ("items", obj [("type", str "string")])]);
                                 ("utilDirs", obj [("type", str "array");
                                                   ("items", obj [("type", str "string")])]);
                                 ("packages", obj [("type", str "array");
                                                   ("items", obj [("type", str "string")])])])])])])])])]);
            ("required", strs ["repository"; "configuration"])])];
    obj [("name", str "send_review_command");
         ("description", str "Send a command to CodeRabbit during code review");
         ("inputSchema", obj [
            ("type", str "object");
            ("properties", obj [
               ("command", obj [
                  ("type", str "string");
                  ("enum", strs ["generate docstrings"; "explain reasoning"; "remember rule";
                                 "provide context"; "clarify suggestion"]);
                  ("description", str "CodeRabbit command to execute")]);
               ("context", obj [("type", str "string");
                                ("description", str "Additional context for the command")]);
               ("targetFiles", obj [("type", str "array");
                                    ("items", obj [("type", str "string")]);
                                    ("description", str "Specific files to target (optional)")])]);
            ("required", strs ["command"])])];
    obj [("name", str "check_health");
         ("description", str "Check CodeRabbit agent health status");
         ("inputSchema", obj [
            ("type", str "object");
            ("properties", obj [
               ("agentUrl", obj [
                  ("type", str "string");
                  ("description", str "CodeRabbit agent URL (default: http://127.0.0.1:8080)");
                  ("default", str "http://127.0.0.1:8080")])])])];
    obj [("name", str "create_custom_report");
         ("description", str "Create a custom report with specific template and filters");
         ("inputSchema", obj [
            ("type", str "object");
            ("properties", obj [
               ("template", obj [("type", str "string");
                                 ("description", str "Custom report template instructions")]);
               ("dateRange", obj [
                  ("type", str "object");
                  ("properties", obj [
                     ("from", obj [("type", str "string"); ("format", str "date")]);
                     ("to", obj [("type", str "string"); ("format", str "date")])]);
                  ("required", strs ["from"; "to"])]);
               ("filters", obj [
                  ("type", str "object");
                  ("properties", obj [
                     ("repositories", obj [("type", str "array");
                                           ("items", obj [("type", str "string")])]);
                     ("authors", obj [("type", str "array");
                                      ("items", obj [("type", str "string")])]);
                     ("labels", obj [("type", str "array");
                                     ("items", obj [("type", str "string")])]);
                     ("includeOnlyMerged", obj [("type", str "boolean")]);
                     ("excludeBots", obj [("type", str "boolean")])])])]);
            ("required", strs ["template"; "dateRange"])])]
  ])].

(** The value the list-resources handler returns. *)
Definition listResources : JsVal :=
  obj [("resources", arr [
    obj [("uri", str "coderabbit://config/sample");
         ("name", str "Sample CodeRabbit Configuration");
         ("description", str "Example .coderabbit.yaml configuration file");
         ("mimeType", str "application/yaml")];
    obj [("uri", str "coderabbit://commands/help");
         ("name", str "CodeRabbit Commands Reference");
         ("description", str "Available CodeRabbit commands and their usage");
         ("mimeType", str "text/markdown")];
    obj [("uri", str "coderabbit://tools/astgrep");
         ("name", str "AST-Grep Rules Examples");
         ("description", str "Example AST-Grep rules for code analysis");
         ("mimeType", str "application/yaml")];
    obj [("uri", str "coderabbit://env/template");
         ("name", str "Environment Configuration Template");
         ("description", str "Template for CodeRabbit self-hosted .env file");
         ("mimeType", str "text/plain")]
  ])].

(** ** Resource content generators *)

Definition getSampleConfiguration : string := lines [
  "# .coderabbit.yaml - Sample Configuration";
  "";
  "# Remote configuration (optional)";
  "remote_config:";
  "  url: " ++ q "https://your-config-location/.coderabbit.yaml";
  "";
  "# Review settings";
  "reviews:";
  "  # Path-based instructions";
  "  path_instructions:";
  "    - path: " ++ q "**/*.js";
  "      instructions: |";
  "        Review the JavaScript code against the Google JavaScript style guide and point out any mismatches";
  "    - path: " ++ q "tests/**.*";
  "      instructions: |";
  "        Review the following unit test code written using the Mocha test library. Ensure that:";
  "        - The code adheres to best practices associated with Mocha.";
  "        - Descriptive test names are used to clearly convey the intent of each test.";
  "    - path: " ++ q "**/*.ts";
  "      instructions: |";
  "        Review TypeScript code for type safety and modern practices.";
  "";
  "  # Tools configuration";
  "  tools:";
  "    ast-grep:";
  "      essential_rules: true";
  "      rule_dirs:";
  "        - " ++ q "custom-rules";
  "      util_dirs:";
  "        - " ++ q "utils";
  "      packages:";
  "        - " ++ q "my-awesome-org/my-awesome-package";
  "";
  "# Code generation settings";
  "code_generation:";
  "  docstrings:";
  "    path_instructions:";
  "      - path: " ++ q "**/*.ts";
  "        instructions: |";
  "          End all docstrings with a notice that says " ++ q "Auto-generated by CodeRabbit." ++ ".";
  "          Do not omit the closing tags; the docstring must be valid."
].

Definition getCommandsHelp : string := lines [
  "# CodeRabbit Commands Reference";
  "";
  "## Interactive Commands";
  "";
  "Use these commands in pull request comments to interact with CodeRabbit:";
  "";
  "### Code Generation";
  backtick ++ "@coderabbitai generate docstrings" ++ backtick;
  "- Automatically generates and commits missing docstrings";
  "";
  "### Review Interaction";
  backtick ++ "@coderabbitai explain reasoning" ++ backtick;
  "- Ask CodeRabbit to explain its review suggestions";
  "";
  "### Context Provision";
  backtick ++ "@coderabbitai do not complain about [issue] here, it is handled [elsewhere]" ++ backtick;
  "- Provide context for specific code sections";
  "";
  "### Rule Management";
  backtick ++ "@coderabbitai always remember to [rule]" ++ backtick;
  "- Set persistent rules for future reviews";
  "";
  "### Clarification";
  backtick ++ "@coderabbitai Why do all of these functions need docstrings?" ++ backtick;
  "- Ask for clarification on specific suggestions";
  "";
  "## Configuration Commands";
  "";
  "### Path-based Instructions";
  "Configure review instructions for specific file patterns in " ++ backtick ++ ".coderabbit.yaml" ++ backtick ++ ":";
  "";
  backtick ++ backtick ++ backtick ++ "yaml";
  "reviews:";
  "  path_instructions:";
  "    - path: " ++ q "**/*.js";
  "      instructions: |";
  "        Review against Google JavaScript style guide";
  backtick ++ backtick ++ backtick;
  "";
  "### Tool Configuration";
  "Enable and configure analysis tools:";
  "";
  backtick ++ backtick ++ backtick ++ "yaml";
  "reviews:";
  "  tools:";
  "    ast-grep:";
  "      essential_rules: true";
  "      rule_dirs: [" ++ q "rules" ++ "]";
  backtick ++ backtick ++ backtick
].

Definition getAstGrepExamples : string := lines [
  "# AST-Grep Rules Examples";
  "";
  "# Restrict console usage in TypeScript";
  "id: no-console-except-error";
  "language: typescript";
  "message: " ++ q "No console.log allowed except console.error in catch blocks";
  "rule:";
  "  any:";
  "    - pattern: console.error($$$)";
  "      not:";
  "        inside:";
  "          kind: catch_clause";
  "          stopBy: end";
  "    - pattern: console.$METHOD($$$)";
  "constraints:";
  "  METHOD:";
  "    regex: " ++ q "log|debug|warn";
  "";
  "---";
  "";
  "# Disallow imports without extensions in JavaScript";
  "id: find-import-file";
  "language: js";
  "message: " ++ q "Importing files without an extension is not allowed";
  "rule:";
  "  regex: " ++ q "/[^.]+[^/]$/";
  "  kind: string_fragment";
  "  any:";
  "    - inside:";
  "        stopBy: end";
  "        kind: import_statement";
  "    - inside:";
  "        stopBy: end";
  "        kind: call_expression";
  "        has:";
  "          field: function";
  "          regex: " ++ q "^import$";
  "";
  "---";
  "";
  "# Utility rule for literals";
  "utils:";
  "  is-literal:";
  "    any:";
  "      - kind: string";
  "      - kind: number";
  "      - kind: boolean";
  "";
  "rule:";
  "  matches: is-literal"
].

Definition getEnvTemplate : string := lines [
  "# CodeRabbit Self-Hosted Environment Configuration";
  "";
  "# LLM Provider Configuration";
  "LLM_PROVIDER=openai";
  "LLM_TIMEOUT=360000";
  "OPENAI_API_KEYS=<your-openai-key>";
  "OPENAI_BASE_URL=<optional-base-url>";
  "OPENAI_ORG_ID=<optional-org-id>";
  "OPENAI_PROJECT_ID=<optional-project-id>";
  "";
  "# Alternative: Azure OpenAI";
  "# LLM_PROVIDER=azure-openai";
  "# AZURE_OPENAI_ENDPOINT=<endpoint>";
  "# AZURE_OPENAI_API_KEY=<key>";
  "# AZURE_GPT41MINI_DEPLOYMENT_NAME=<deployment>";
  "# AZURE_O4MINI_DEPLOYMENT_NAME=<deployment>";
  "# AZURE_O3_DEPLOYMENT_NAME=<deployment>";
  "";
  "# Alternative: AWS Bedrock";
  "# LLM_PROVIDER=bedrock-anthropic";
  "# AWS_ACCESS_KEY_ID=<key>";
  "# AWS_SECRET_ACCESS_KEY=<secret>";
  "# AWS_REGION=<region>";
  "";
  "# Alternative: Anthropic";
  "# LLM_PROVIDER=anthropic";
  "# ANTHROPIC_API_KEYS=<key>";
  "";
  "# System Configuration";
  "TEMP_PATH=/cache";
  "";
  "# Platform Configuration (choose one)";
  "# For GitHub:";
  "SELF_HOSTED=github";
  "GH_WEBHOOK_SECRET=<webhook-secret>";
  "GITHUB_APP_CLIENT_ID=<client-id>";
  "GITHUB_APP_CLIENT_SECRET=<client-secret>";
  "GITHUB_APP_ID=<app-id>";
  "GITHUB_APP_PEM_FILE=<pem-content>";
  "";
  "# For GitLab:";
  "# SELF_HOSTED=gitlab";
  "# GITLAB_BOT_TOKEN=<token>";
  "# GITLAB_WEBHOOK_SECRET=<secret>";
  "";
  "# For Azure DevOps:";
  "# SELF_HOSTED=azure-devops";
  "# AZURE_DEVOPS_BOT_TOKEN=<token>";
  "# AZURE_DEVOPS_BOT_USERNAME=<username>";
  "";
  "# For Bitbucket:";
  "# SELF_HOSTED=bitbucket-server";
  "# BITBUCKET_SERVER_URL=<url>/rest";
  "# BITBUCKET_SERVER_WEBHOOK_SECRET=<secret>";
  "# BITBUCKET_SERVER_BOT_TOKEN=<token>";
  "# BITBUCKET_SERVER_BOT_USERNAME=<username>";
  "";
  "# CodeRabbit Licensing";
  "CODERABBIT_LICENSE_KEY=<license-key>";
  "CODERABBIT_API_KEY=<api-key>";
  "";
  "# Optional Features";
  "ENABLE_METRICS=true";
  "ENABLE_LEARNINGS=true";
  "OBJECT_STORE_URI=<s3://bucket/path>";
  "";
  "# Integration (optional)";
  "JIRA_HOST=<jira-url>";
  "JIRA_PAT=<jira-token>";
  "LINEAR_PAT=<linear-token>";
  "";
  "# Web Search (optional)";
  "ENABLE_WEB_SEARCH=true";
  "PERPLEXITY_API_KEY=<perplexity-key>";
  "";
  "# Proxy Configuration (optional)";
  "HTTP_PROXY=<http-proxy>";
  "HTTPS_PROXY=<https-proxy>";
  "NO_PROXY=<no-proxy>"
].

(** ** Configuration *)

Record CodeRabbitConfig : Type := {
  apiKey : string;
  baseUrl : string
}.

(** [config], built once from the process environment:
    [process.env.CODERABBIT_API_KEY || ''] and the fixed base URL. *)
Definition config (CODERABBIT_API_KEY : option string) : CodeRabbitConfig :=
  {| apiKey := match CODERABBIT_API_KEY with
               | Some k => k
               | None => ""
               end;
     baseUrl := "https://api.coderabbit.ai/api/v1" |}.

(** ** Tool results *)

(** [{ content: [{ type: 'text', text }] }] *)
Definition textContent (t : string) : JsVal :=
  obj [("content", arr [obj [("type", str "text"); ("text", str t)]])].

(** [{ content: [{ type: 'text', text }], isError: true }] *)
Definition errorContent (t : string) : JsVal :=
  obj [("content", arr [obj [("type", str "text"); ("text", str t)]]);
       ("isError", VBool true)].

(** Observers of a tool result: its error flag and the text of its first
    content block. *)
Definition isError (result : JsVal) : bool :=
  truthy (getPropOpt result "isError").

Definition resultText (result : JsVal) : string :=
  match getPropOpt result "content" with
  | VArr (block :: _) => shown (getPropOpt block "text")
  | _ => ""
  end.

(** ** Tool implementations *)

Definition reportRequest (cfg : CodeRabbitConfig) (from to : JsVal) : HttpRequest :=
  {| method := POST;
     url := baseUrl cfg ++ "/report.generate";
     body := Some (obj [("from", from); ("to", to)]);
     headers := [("accept", "application/json");
                 ("x-coderabbitai-api-key", apiKey cfg);
                 ("Content-Type", "application/json")];
     timeout := None |}.

(** The message [generateReport] throws when no key is configured. *)
Definition apiKeyMissing : string :=
  "CodeRabbit API key not configured. Set CODERABBIT_API_KEY environment variable.".

(** [error.response?.status] *)
Definition responseStatus (response : option AxiosResponse) : string :=
  match response with
  | Some r => decimal (status r)
  | None => "undefined"
  end.

(** [error.response?.data?.message] *)
Definition responseDataMessage (response : option AxiosResponse) : JsVal :=
  match response with
  | Some r => getPropOpt (data r) "message"
  | None => VUndefined
  end.

Definition generateReport (cfg : CodeRabbitConfig) (args : JsVal) : Prog JsVal :=
  if negb (truthy (VStr (apiKey cfg))) then
    Throw (JsError apiKeyMissing)
  else
    tryCatch
      (from <- getProp args "from" ;;
       to <- getProp args "to" ;;
       response <- axiosRequest (reportRequest cfg from to) ;;
       Ret (textContent ("CodeRabbit Report Generated Successfully" ++ nl ++ nl
                           ++ stringify2 (data response))))
      (fun error =>
         match error with
         | AxiosError message response =>
             text <- convert (or_else (responseDataMessage response) (VStr message)) ;;
             Throw (JsError ("API Error: " ++ responseStatus response ++ " - " ++ text))
         | _ => Throw error
         end).

(** The part of the analysis object that never changes. *)
Definition analysisFixedPart : list (string * JsVal) :=
  [("suggestions", arr [
      obj [("type", str "code_quality");
           ("file", str "src/utils.ts");
           ("line", num "42");
           ("message", str "Consider adding error handling for this function");
           ("severity", str "medium")];
      obj [("type", str "documentation");
           ("file", str "src/api.ts");
           ("line", num "15");
           ("message", str "Missing docstring for this public function");
           ("severity", str "low")]]);
   ("metrics", obj [("linesAdded", num "150");
                    ("linesRemoved", num "25");
                    ("filesChanged", num "8");
                    ("complexityScore", num "6.2")])].

(** The local [analysis] of [analyzePullRequest]. *)
Definition analysisOf (repository pullRequest : JsVal) (timestamp : string) : JsVal :=
  obj (("repository", repository)
       :: ("pullRequest", pullRequest)
       :: ("timestamp", str timestamp)
       :: analysisFixedPart).

Definition analyzePullRequest (args : JsVal) : Prog JsVal :=
  repository <- getProp args "repository" ;;
  pullRequest <- getProp args "pullRequestNumber" ;;
  timestamp <- nowISO ;;
  let analysis := analysisOf repository pullRequest timestamp in
  Ret (textContent ("Pull Request Analysis Complete" ++ nl ++ nl ++ stringify2 analysis)).

(** [xs.forEach(f)] where [f] updates the local [yaml]. *)
Fixpoint forEachM {S : Type} (f : S -> JsVal -> Prog S) (xs : list JsVal) (s : S)
  : Prog S :=
  match xs with
  | [] => Ret s
  | x :: rest => s' <- f s x ;; forEachM f rest s'
  end.

(** [v.forEach(f)]: only an array has the method. *)
Definition forEach {S : Type} (expr : string) (v : JsVal)
    (f : S -> JsVal -> Prog S) (s : S) : Prog S :=
  match v with
  | VUndefined => Throw (cannotRead "undefined" "forEach")
  | VNull => Throw (cannotRead "null" "forEach")
  | VArr xs => forEachM f xs s
  | _ => Throw (notAFunction (expr ++ ".forEach"))
  end.

(** [v.replace(/\n/g, by)]: only a string has the method. *)
Definition replaceOn (expr : string) (v : JsVal) (by_ : string) : Prog string :=
  match v with
  | VUndefined => Throw (cannotRead "undefined" "replace")
  | VNull => Throw (cannotRead "null" "replace")
  | VStr s => Ret (replaceNewlines by_ s)
  | _ => Throw (notAFunction (expr ++ ".replace"))
  end.

(** One of the three blocks [if (dirs) { yaml += heading; dirs.forEach(...) }]. *)
Definition appendEntries (expr heading : string) (dirs : JsVal) (yaml : string)
  : Prog string :=
  if truthy dirs then
    forEach expr dirs
      (fun yaml dir => text <- convert dir ;;
                       Ret (yaml ++ "        - " ++ q text ++ nl))
      (yaml ++ heading)
  else Ret yaml.

Definition appendInstruction (yaml : string) (instruction : JsVal) : Prog string :=
  path <- getProp instruction "path" ;;
  pathText <- convert path ;;
  let yaml := yaml ++ "    - path: " ++ q pathText ++ nl in
  let yaml := yaml ++ "      instructions: |" ++ nl in
  instructions <- getProp instruction "instructions" ;;
  replaced <- replaceOn "instruction.instructions" instructions (nl ++ "        ") ;;
  Ret (yaml ++ "        " ++ replaced ++ nl).

Definition generateCodeRabbitYaml (config : JsVal) : Prog string :=
  let yaml := "# CodeRabbit Configuration" ++ nl ++ nl in
  pathInstructions <- getProp config "pathInstructions" ;;
  yaml <- (if truthy pathInstructions then
             forEach "config.pathInstructions" pathInstructions appendInstruction
                     (yaml ++ "reviews:" ++ nl ++ "  path_instructions:" ++ nl)
           else Ret yaml) ;;
  tools <- getProp config "tools" ;;
  let astGrep := getPropOpt tools "astGrep" in
  if truthy astGrep then
    let yaml := yaml ++ nl ++ "  tools:" ++ nl ++ "    ast-grep:" ++ nl in
    essentialRules <- getProp astGrep "essentialRules" ;;
    let yaml := if truthy essentialRules
                then yaml ++ "      essential_rules: true" ++ nl
                else yaml in
    ruleDirs <- getProp astGrep "ruleDirs" ;;
    yaml <- appendEntries "config.tools.astGrep.ruleDirs"
                          ("      rule_dirs:" ++ nl) ruleDirs yaml ;;
    utilDirs <- getProp astGrep "utilDirs" ;;
    yaml <- appendEntries "config.tools.astGrep.utilDirs"
                          ("      util_dirs:" ++ nl) utilDirs yaml ;;
    packages <- getProp astGrep "packages" ;;
    yaml <- appendEntries "config.tools.astGrep.packages"
                          ("      packages:" ++ nl) packages yaml ;;
    Ret yaml
  else Ret yaml.

Definition configureReviewSettings (args : JsVal) : Prog JsVal :=
  configuration <- getProp args "configuration" ;;
  yamlConfig <- generateCodeRabbitYaml configuration ;;
  repository <- getProp args "repository" ;;
  repositoryText <- convert repository ;;
  Ret (textContent ("CodeRabbit Configuration Generated for " ++ repositoryText
                      ++ nl ++ nl ++ "```yaml" ++ nl ++ yamlConfig ++ nl ++ "```")).

(** What indexing the [commandMapping] object literal can give: one of its
    five strings, or what the literal inherits from [Object.prototype]
    (the built-in methods, the [constructor], the [__proto__] accessor),
    or [undefined]. *)
Inductive PropertyValue : Type :=
| PString (s : string)
| PNativeFunction (name : string)
| PObjectPrototype
| PUndefined.

Definition objectPrototypeMethods : list string :=
  ["__defineGetter__"; "__defineSetter__"; "hasOwnProperty"; "__lookupGetter__";
   "__lookupSetter__"; "isPrototypeOf"; "propertyIsEnumerable"; "toString";
   "valueOf"; "toLocaleString"].

Definition inheritedProperty (key : string) : PropertyValue :=
  if key =? "constructor" then PNativeFunction "Object"
  else if key =? "__proto__" then PObjectPrototype
  else if existsb (String.eqb key) objectPrototypeMethods then PNativeFunction key
  else PUndefined.

Fixpoint ownProperty (key : string) (entries : list (string * string)) : option string :=
  match entries with
  | [] => None
  | (k, v) :: rest => if key =? k then Some v else ownProperty key rest
  end.

(** [mapping[key]], for a key already converted to a string. *)
Definition mappingAt (mapping : list (string * string)) (key : string) : PropertyValue :=
  match ownProperty key mapping with
  | Some s => PString s
  | None => inheritedProperty key
  end.

(** ToString of such a value; a built-in function prints the way Node
    prints it. *)
Definition propertyToString (v : PropertyValue) : string :=
  match v with
  | PString s => s
  | PNativeFunction name => "function " ++ name ++ "() { [native code] }"
  | PObjectPrototype => "[object Object]"
  | PUndefined => "undefined"
  end.

(** The default wordings of the two directives that take a context. *)
Definition defaultRule : string := "to follow best practices".
Definition defaultContext : string :=
  "do not complain about lack of error handling here, it is handled higher up the execution stack.".

(** Building the object literal [commandMapping] evaluates both templates
    on [args.context], whatever the command is. *)
(** The entries of the object literal [commandMapping], for the texts of
    its two templates. *)
Definition mappingFor (rule given : string) : list (string * string) :=
  [("generate docstrings", "@coderabbitai generate docstrings");
   ("explain reasoning",
    "@coderabbitai Why do all of these functions need docstrings? Isn't it obvious enough what they do?");
   ("remember rule", "@coderabbitai always remember " ++ rule);
   ("provide context", "@coderabbitai " ++ given);
   ("clarify suggestion", "@coderabbitai Please clarify this suggestion")].

Definition commandMapping (context : JsVal) : Prog (list (string * string)) :=
  rule <- convert (or_else context (str defaultRule)) ;;
  given <- convert (or_else context (str defaultContext)) ;;
  Ret (mappingFor rule given).

(** [v.join(sep)]: only an array has the method. *)
Definition joinOn (expr : string) (v : JsVal) (sep : string) : Prog string :=
  match v with
  | VUndefined => Throw (cannotRead "undefined" "join")
  | VNull => Throw (cannotRead "null" "join")
  | VArr xs =>
      match joinElems sep xs with
      | Some s => Ret s
      | None => Throw cannotConvert
      end
  | _ => Throw (notAFunction (expr ++ ".join"))
  end.

(** The tail [${args.targetFiles ? `\n\nTarget files: ...` : ''}]. *)
Definition targetFilesSuffix (targetFiles : JsVal) : Prog string :=
  if truthy targetFiles then
    joined <- joinOn "args.targetFiles" targetFiles ", " ;;
    Ret (nl ++ nl ++ "Target files: " ++ joined)
  else Ret "".

(** The local [command] of [sendReviewCommand]: the mapping is built, then
    indexed by the command, converted to a property key. *)
Definition commandOf (context command : JsVal) : Prog PropertyValue :=
  mapping <- commandMapping context ;;
  key <- convert command ;;
  Ret (mappingAt mapping key).

(** The result text: [`CodeRabbit Command: ${command}\n\nThis command ...${suffix}`] *)
Definition commandText (command suffix : string) : string :=
  "CodeRabbit Command: " ++ command ++ nl ++ nl
  ++ "This command can be posted as a comment in your pull request to interact with CodeRabbit."
  ++ suffix.

Definition sendReviewCommand (args : JsVal) : Prog JsVal :=
  context <- getProp args "context" ;;
  mapping <- commandMapping context ;;
  commandKey <- getProp args "command" ;;
  key <- convert commandKey ;;
  let command := mappingAt mapping key in
  targetFiles <- getProp args "targetFiles" ;;
  suffix <- targetFilesSuffix targetFiles ;;
  Ret (textContent (commandText (propertyToString command) suffix)).

(** The probe of [checkHealth], for the text of the agent URL. *)
Definition healthRequest (agentUrl : string) : HttpRequest :=
  {| method := GET;
     url := agentUrl ++ "/health";
     body := None;
     headers := [];
     timeout := Some 5000%Z |}.

Definition checkHealth (args : JsVal) : Prog JsVal :=
  given <- getProp args "agentUrl" ;;
  let agentUrl := or_else given (str "http://127.0.0.1:8080") in
  tryCatch
    (target <- convert agentUrl ;;
     response <- axiosRequest (healthRequest target) ;;
     shownUrl <- convert agentUrl ;;
     Ret (textContent ("CodeRabbit Agent Health Check" ++ nl ++ nl
                         ++ "Status: ✅ Healthy" ++ nl
                         ++ "URL: " ++ shownUrl ++ nl
                         ++ "Response: " ++ decimal (status response) ++ " "
                         ++ statusText response)))
    (fun error =>
       shownUrl <- convert agentUrl ;;
       Ret (textContent ("CodeRabbit Agent Health Check" ++ nl ++ nl
                           ++ "Status: ❌ Unhealthy" ++ nl
                           ++ "URL: " ++ shownUrl ++ nl
                           ++ "Error: " ++ errorMessage error))).

Definition createCustomReport (args : JsVal) : Prog JsVal :=
  template <- getProp args "template" ;;
  dateRange <- getProp args "dateRange" ;;
  filters <- getProp args "filters" ;;
  generatedAt <- nowISO ;;
  let reportData :=
    obj [("template", template);
         ("dateRange", dateRange);
         ("filters", or_else filters (obj []));
         ("generatedAt", str generatedAt);
         ("summary", obj [("totalPullRequests", num "42");
                          ("mergedPullRequests", num "38");
                          ("openPullRequests", num "4");
                          ("averageReviewTime", str "2.3 days");
                          ("topReviewers", strs ["alice"; "bob"; "charlie"])])] in
  Ret (textContent ("Custom CodeRabbit Report" ++ nl ++ nl ++ stringify2 reportData)).

(** ** Request handlers *)

(** The call-tool handler: [name] and [arguments] of the request params;
    the protocol makes [arguments] optional, a request without it gives
    [args = undefined]. *)
Definition callTool (cfg : CodeRabbitConfig) (name : string) (args : JsVal)
  : Prog JsVal :=
  tryCatch
    (if name =? "generate_report" then
       Invoke "generateReport" (generateReport cfg args)
     else if name =? "analyze_pull_request" then
       Invoke "analyzePullRequest" (analyzePullRequest args)
     else if name =? "configure_review_settings" then
       Invoke "configureReviewSettings" (configureReviewSettings args)
     else if name =? "send_review_command" then
       Invoke "sendReviewCommand" (sendReviewCommand args)
     else if name =? "check_health" then
       Invoke "checkHealth" (checkHealth args)
     else if name =? "create_custom_report" then
       Invoke "createCustomReport" (createCustomReport args)
     else Throw (JsError ("Unknown tool: " ++ name)))
    (fun error =>
       Ret (errorContent ("Error executing " ++ name ++ ": " ++ errorMessage error))).

Definition resourceContents (uri mimeType body : string) : JsVal :=
  obj [("contents", arr [obj [("uri", str uri);
                              ("mimeType", str mimeType);
                              ("text", str body)]])].

(** The read-resource handler. *)
Definition readResource (uri : string) : Prog JsVal :=
  if uri =? "coderabbit://config/sample" then
    Ret (resourceContents uri "application/yaml" getSampleConfiguration)
  else if uri =? "coderabbit://commands/help" then
    Ret (resourceContents uri "text/markdown" getCommandsHelp)
  else if uri =? "coderabbit://tools/astgrep" then
    Ret (resourceContents uri "application/yaml" getAstGrepExamples)
  else if uri =? "coderabbit://env/template" then
    Ret (resourceContents uri "text/plain" getEnvTemplate)
  else Throw (JsError ("Unknown resource: " ++ uri)).

(** The four requests the server answers, and the handler each reaches. *)
Inductive Request : Type :=
| ListTools
| CallTool (name : string) (args : JsVal)
| ListResources
| ReadResource (uri : string).

Definition handle (cfg : CodeRabbitConfig) (r : Request) : Prog JsVal :=
  match r with
  | ListTools => Ret listTools
  | CallTool name args => callTool cfg name args
  | ListResources => Ret listResources
  | ReadResource uri => readResource uri
  end.

(** Requests served one after the other in one process: the outcome of
    each, and the events and ticks of the whole sequence. *)
Fixpoint serve (cfg : CodeRabbitConfig) (w : World) (tick : nat) (rs : list Request)
  : list (Completion JsVal) * list Event * nat :=
  match rs with
  | [] => ([], [], tick)
  | r :: rest =>
      let r1 := run w tick (handle cfg r) in
      let '(outs, evs, final) := serve cfg w (ticks r1) rest in
      (outcome r1 :: outs, (trace r1 ++ evs)%list, final)
  end.

(** ** Typed view of a review configuration

    The shape the [configure_review_settings] schema declares for
    [configuration]; no field is required.  [encode] gives the object a
    caller sends for it. *)

Record PathInstruction : Type := {
  path : string;
  instructions : string
}.

Record AstGrep : Type := {
  essentialRules : option bool;
  ruleDirs : option (list string);
  utilDirs : option (list string);
  packages : option (list string)
}.

Record Tools : Type := {
  astGrep : option AstGrep
}.

Record ReviewConfiguration : Type := {
  pathInstructions : option (list PathInstruction);
  tools : option Tools
}.

(** The value of a property that may be absent. *)
Definition valueOr (o : option JsVal) : JsVal :=
  match o with
  | Some v => v
  | None => VUndefined
  end.

(** The properties that are present, in order. *)
Fixpoint present (fields : list (string * option JsVal)) : list (string * JsVal) :=
  match fields with
  | [] => []
  | (k, Some v) :: rest => (k, v) :: present rest
  | (_, None) :: rest => present rest
  end.

Definition encodeInstruction (p : PathInstruction) : JsVal :=
  obj [("path", str (path p)); ("instructions", str (instructions p))].

Definition encodeAstGrep (a : AstGrep) : JsVal :=
  obj (present [("essentialRules", option_map VBool (essentialRules a));
                ("ruleDirs", option_map strs (ruleDirs a));
                ("utilDirs", option_map strs (utilDirs a));
                ("packages", option_map strs (packages a))]).

Definition encodeTools (t : Tools) : JsVal :=
  obj (present [("astGrep", option_map encodeAstGrep (astGrep t))]).

Definition encode (c : ReviewConfiguration) : JsVal :=
  obj (present [("pathInstructions",
                 option_map (fun ps => arr (map encodeInstruction ps)) (pathInstructions c));
                ("tools", option_map encodeTools (tools c))]).

(** The ast-grep settings of a configuration, when it has any. *)
Definition astGrepOf (c : ReviewConfiguration) : option AstGrep :=
  match tools c with
  | Some t => astGrep t
  | None => None
  end.

(** *** The document, described declaratively *)

Fixpoint concatStrings (parts : list string) : string :=
  match parts with
  | [] => ""
  | p :: rest => p ++ concatStrings rest
  end.

(** An instruction entry: its path between quotes, then its instructions
    as a block scalar, every line indented by eight spaces. *)
Definition instructionBlock (p : PathInstruction) : string :=
  "    - path: " ++ q (path p) ++ nl
  ++ "      instructions: |" ++ nl
  ++ "        " ++ replaceNewlines (nl ++ "        ") (instructions p) ++ nl.

Definition entryLine (d : string) : string := "        - " ++ q d ++ nl.

Definition entriesBlock (heading : string) (ds : option (list string)) : string :=
  match ds with
  | Some l => heading ++ concatStrings (map entryLine l)
  | None => ""
  end.

Definition document (c : ReviewConfiguration) : string :=
  "# CodeRabbit Configuration" ++ nl ++ nl
  ++ match pathInstructions c with
     | Some ps => "reviews:" ++ nl ++ "  path_instructions:" ++ nl
                  ++ concatStrings (map instructionBlock ps)
     | None => ""
     end
  ++ match astGrepOf c with
     | Some a => nl ++ "  tools:" ++ nl ++ "    ast-grep:" ++ nl
                 ++ match essentialRules a with
                    | Some true => "      essential_rules: true" ++ nl
                    | _ => ""
                    end
                 ++ entriesBlock ("      rule_dirs:" ++ nl) (ruleDirs a)
                 ++ entriesBlock ("      util_dirs:" ++ nl) (utilDirs a)
                 ++ entriesBlock ("      packages:" ++ nl) (packages a)
     | None => ""
     end.

(** ** Observers of the registry *)

Definition elements (v : JsVal) : list JsVal :=
  match v with
  | VArr xs => xs
  | _ => []
  end.

Definition toolDescriptors : list JsVal := elements (getPropOpt listTools "tools").

Definition toolName (descriptor : JsVal) : string :=
  shown (getPropOpt descriptor "name").

(** The fields a descriptor's schema marks as required. *)
Definition requiredFields (descriptor : JsVal) : list string :=
  map shown (elements (getPropOpt (getPropOpt descriptor "inputSchema") "required")).

Definition toolNames : list string := map toolName toolDescriptors.

Definition resourceDescriptors : list JsVal :=
  elements (getPropOpt listResources "resources").

Definition resourceUris : list string :=
  map (fun d => shown (getPropOpt d "uri")) resourceDescriptors.

(** The MIME type the registry declares for a URI. *)
Definition declaredMimeType (uri : string) : string :=
  match find (fun d => shown (getPropOpt d "uri") =? uri) resourceDescriptors with
  | Some d => shown (getPropOpt d "mimeType")
  | None => ""
  end.

(** ** Summaries of handler behaviour

    What the router and two handlers produce once the environment has
    answered, as plain functions; the lemmas on [run] below relate them to
    the handlers. *)

(** What the router's [catch] turns a thrown value into. *)
Definition routerError (name : string) (error : Thrown) : JsVal :=
  errorContent ("Error executing " ++ name ++ ": " ++ errorMessage error).

(** The completion of [generateReport] once the network has answered. *)
Definition reportCompletion (o : HttpOutcome) : Completion JsVal :=
  match o with
  | Resolved response =>
      Returns (textContent ("CodeRabbit Report Generated Successfully" ++ nl ++ nl
                              ++ stringify2 (data response)))
  | Rejected (AxiosError message response) =>
      match toString (or_else (responseDataMessage response) (VStr message)) with
      | Some text =>
          Throws (JsError ("API Error: " ++ responseStatus response ++ " - " ++ text))
      | None => Throws cannotConvert
      end
  | Rejected error => Throws error
  end.

(** The URL [checkHealth] probes: [args.agentUrl || 'http://127.0.0.1:8080']. *)
Definition agentUrlOf (props : list (string * JsVal)) : JsVal :=
  or_else (lookup "agentUrl" props) (str "http://127.0.0.1:8080").

(** The text of [checkHealth]'s result once the network has answered, for
    the text of the agent URL. *)
Definition healthText (agentUrl : string) (o : HttpOutcome) : string :=
  match o with
  | Resolved response =>
      "CodeRabbit Agent Health Check" ++ nl ++ nl
        ++ "Status: ✅ Healthy" ++ nl
        ++ "URL: " ++ agentUrl ++ nl
        ++ "Response: " ++ decimal (status response) ++ " " ++ statusText response
  | Rejected error =>
      "CodeRabbit Agent Health Check" ++ nl ++ nl
        ++ "Status: ❌ Unhealthy" ++ nl
        ++ "URL: " ++ agentUrl ++ nl
        ++ "Error: " ++ errorMessage error
  end.

(** The five values the [send_review_command] schema enumerates. *)
Definition commandEnum : list string :=
  ["generate docstrings"; "explain reasoning"; "remember rule"; "provide context";
   "clarify suggestion"].

(** ** What a program may do

    [Always PE PA p]: on every path of [p], whatever the environment
    answers, each event satisfies [PE] and a returned value satisfies [PA].
    [AtMost n p]: no path of [p] reads the clock or awaits a request more
    than [n] times. *)
Fixpoint Always {A : Type} (PE : Event -> Prop) (PA : A -> Prop) (p : Prog A) : Prop :=
  match p with
  | Ret a => PA a
  | Throw _ => True
  | Invoke h k => PE (EvInvoke h) /\ Always PE PA k
  | Now k => PE EvClock /\ forall t, Always PE PA (k t)
  | Http r k => PE (EvHttp r) /\ forall o, Always PE PA (k o)
  end.

Fixpoint AtMost {A : Type} (n : nat) (p : Prog A) : Prop :=
  match p with
  | Ret _ => True
  | Throw _ => True
  | Invoke _ k => AtMost n k
  | Now k => match n with
             | 0 => False
             | S m => forall t, AtMost m (k t)
             end
  | Http _ k => match n with
                | 0 => False
                | S m => forall o, AtMost m (k o)
                end
  end.

(** The events a tool method may cause, by tool name: the two synthetic
    reports read the clock, [generate_report] posts to the report endpoint,
    [check_health] probes an agent; no method calls another tool method. *)
Definition handlerEvent (cfg : CodeRabbitConfig) (name : string) (e : Event) : Prop :=
  match e with
  | EvInvoke _ => False
  | EvClock => name = "analyze_pull_request" \/ name = "create_custom_report"
  | EvHttp rq =>
      (name = "generate_report" /\ exists from to, rq = reportRequest cfg from to)
      \/ (name = "check_health" /\ exists agentUrl, rq = healthRequest agentUrl)
  end.

(** A tool result with one text block, flagged as an error or not. *)
Definition isTextResult (result : JsVal) : Prop :=
  exists t, result = textContent t.

(** An entry of [pathInstructions] the serialiser can print: an object
    whose [path] converts to a string and whose [instructions] is a
    string. *)
Definition printableInstruction (instruction : JsVal) : bool :=
  match instruction with
  | VObj props =>
      match toString (lookup "path" props), lookup "instructions" props with
      | Some _, VStr _ => true
      | _, _ => false
      end
  | _ => false
  end.

(** The local [reportData] of [createCustomReport]. *)
Definition reportDataOf (template dateRange filters : JsVal) (generatedAt : string)
  : JsVal :=
  obj [("template", template);
       ("dateRange", dateRange);
       ("filters", or_else filters (obj []));
       ("generatedAt", str generatedAt);
       ("summary", obj [("totalPullRequests", num "42");
                        ("mergedPullRequests", num "38");
                        ("openPullRequests", num "4");
                        ("averageReviewTime", str "2.3 days");
                        ("topReviewers", strs ["alice"; "bob"; "charlie"])])].

(** A program without any event. *)
Definition Pure {A : Type} (p : Prog A) : Prop :=
  Always (fun _ => False) (fun _ => True) p.

(** The [switch] of the call-tool handler as a table: the method a name
    selects, with its marker, if any. *)
Definition dispatch (cfg : CodeRabbitConfig) (name : string) (args : JsVal)
  : option (string * Prog JsVal) :=
  if name =? "generate_report" then Some ("generateReport", generateReport cfg args)
  else if name =? "analyze_pull_request" then
    Some ("analyzePullRequest", analyzePullRequest args)
  else if name =? "configure_review_settings" then
    Some ("configureReviewSettings", configureReviewSettings args)
  else if name =? "send_review_command" then
    Some ("sendReviewCommand", sendReviewCommand args)
  else if name =? "check_health" then Some ("checkHealth", checkHealth args)
  else if name =? "create_custom_report" then
    Some ("createCustomReport", createCustomReport args)
  else None.


(** * Properties *)

(** A string is not in a list of other, literal strings. *)
Ltac not_in_list :=
  let H := fresh "H" in
  simpl; intros H;
  repeat (destruct H as [H | H]; [discriminate H |]);
  exact H.

(** ** Strings *)

Lemma append_assoc (a b c : string) : (a ++ b) ++ c = a ++ b ++ c.
Proof. induction a as [|x a IH]; simpl; [reflexivity | now rewrite IH]. Qed.

Lemma append_nil_r (a : string) : a ++ "" = a.
Proof. induction a as [|x a IH]; simpl; [reflexivity | now rewrite IH]. Qed.

Lemma startsWith_append (n rest : string) : startsWith n (n ++ rest) = true.
Proof.
  induction n as [|x n IH]; simpl; [reflexivity |].
  now rewrite Ascii.eqb_refl, IH.
Qed.

Lemma includes_here (n rest : string) : includes n (n ++ rest) = true.
Proof.
  destruct (n ++ rest) eqn:E; simpl;
    rewrite <- E, startsWith_append; reflexivity.
Qed.

Lemma includes_after (n a h : string) :
  includes n h = true -> includes n (a ++ h) = true.
Proof.
  intros H. induction a as [|x a IH]; simpl; [exact H |].
  rewrite IH. apply orb_true_r.
Qed.

Lemma startsWith_before (n h b : string) :
  startsWith n h = true -> startsWith n (h ++ b) = true.
Proof.
  revert h. induction n as [|x n IH]; intros h H; [reflexivity |].
  destruct h as [|y h]; simpl in *; [discriminate |].
  apply andb_true_iff in H as [H1 H2].
  now rewrite H1, IH.
Qed.

Lemma includes_before (n h b : string) :
  includes n h = true -> includes n (h ++ b) = true.
Proof.
  induction h as [|y h IH]; intros H.
  - simpl in H. rewrite orb_false_r in H.
    destruct n; [destruct b; reflexivity | discriminate].
  - cbn [includes] in H. apply orb_true_iff in H as [H | H].
    + change (String y h ++ b) with (String y (h ++ b)).
      cbn [includes].
      change (String y (h ++ b)) with (String y h ++ b).
      now rewrite (startsWith_before _ _ b H).
    + change (String y h ++ b) with (String y (h ++ b)).
      cbn [includes]. rewrite (IH H). apply orb_true_r.
Qed.

Lemma includes_middle (a n b : string) : includes n (a ++ n ++ b) = true.
Proof. apply includes_after, includes_here. Qed.

(** ** The registry *)

(** The schema of [send_review_command] enumerates [commandEnum], and these
    are the keys of [commandMapping]. *)
Lemma commandEnum_is_schema_enum :
  exists d, nth_error toolDescriptors 3 = Some d
    /\ toolName d = "send_review_command"
    /\ map shown
         (elements (getPropOpt
            (getPropOpt (getPropOpt (getPropOpt d "inputSchema") "properties") "command")
            "enum")) = commandEnum.
Proof. eexists; repeat split; reflexivity. Qed.

Lemma commandMapping_keys (rule given : string) :
  map fst (mappingFor rule given) = commandEnum.
Proof. reflexivity. Qed.

(** C8: every list-tools request, whatever the configuration, the
    environment and the moment, returns the same value without any effect;
    it holds the six tools in declaration order, and each schema marks as
    required exactly the fields of the catalogue ([check_health] none). *)
Theorem listTools_fixed_catalog :
  forall (cfg : CodeRabbitConfig) (w : World) (tick : nat),
    run w tick (handle cfg ListTools)
      = {| outcome := Returns listTools; trace := []; ticks := tick |}
    /\ toolNames = ["generate_report"; "analyze_pull_request";
                    "configure_review_settings"; "send_review_command";
                    "check_health"; "create_custom_report"]
    /\ map requiredFields toolDescriptors
       = [["from"; "to"];
          ["repository"; "pullRequestNumber"];
          ["repository"; "configuration"];
          ["command"];
          [];
          ["template"; "dateRange"]].
Proof. intros cfg w tick. repeat split; reflexivity. Qed.

(** ** Resources *)

Lemma resourceUris_eq :
  resourceUris = ["coderabbit://config/sample"; "coderabbit://commands/help";
                  "coderabbit://tools/astgrep"; "coderabbit://env/template"].
Proof. reflexivity. Qed.

(** C9: listing resources twice in a row, and reading a registered
    resource twice in a row, gives twice the same value, fixed once and for
    all (it depends on neither the configuration, the environment nor the
    moment); no effect happens and the process is left as it was. *)
Theorem resources_idempotent :
  forall uri : string,
    In uri resourceUris ->
    (forall cfg w tick,
        serve cfg w tick [ListResources; ListResources]
        = ([Returns listResources; Returns listResources], [], tick))
    /\ exists body : string,
        forall cfg w tick,
          serve cfg w tick [ReadResource uri; ReadResource uri]
          = ([Returns (resourceContents uri (declaredMimeType uri) body);
              Returns (resourceContents uri (declaredMimeType uri) body)],
             [], tick).
Proof.
  intros uri Hin. split; [reflexivity |].
  rewrite resourceUris_eq in Hin. simpl in Hin.
  destruct Hin as [<- | [<- | [<- | [<- | []]]]].
  - exists getSampleConfiguration. reflexivity.
  - exists getCommandsHelp. reflexivity.
  - exists getAstGrepExamples. reflexivity.
  - exists getEnvTemplate. reflexivity.
Qed.

Lemma resources_idempotent_witness :
  In "coderabbit://env/template" resourceUris
  /\ exists body : string,
      forall cfg w tick,
        serve cfg w tick [ReadResource "coderabbit://env/template";
                          ReadResource "coderabbit://env/template"]
        = ([Returns (resourceContents "coderabbit://env/template" "text/plain" body);
            Returns (resourceContents "coderabbit://env/template" "text/plain" body)],
           [], tick).
Proof.
  assert (Hin : In "coderabbit://env/template" resourceUris)
    by (simpl; tauto).
  split; [exact Hin |].
  exact (proj2 (resources_idempotent "coderabbit://env/template" Hin)).
Defined.

(** ** The call-tool router *)

Lemma toolNames_eq :
  toolNames = ["generate_report"; "analyze_pull_request";
               "configure_review_settings"; "send_review_command";
               "check_health"; "create_custom_report"].
Proof. reflexivity. Qed.

Lemma not_in_cons_eqb (name k : string) (rest : list string) :
  ~ In name (k :: rest) -> (name =? k) = false /\ ~ In name rest.
Proof.
  intros H. split.
  - apply String.eqb_neq. intros ->. apply H. now left.
  - intros Hin. apply H. now right.
Qed.

(** C5: a call-tool request whose name is none of the six registered names
    is answered by an error-shaped result naming the unknown tool; no tool
    method is entered and no effect happens. *)
Theorem unknown_tool_is_error :
  forall (cfg : CodeRabbitConfig) (w : World) (tick : nat) (name : string) (args : JsVal),
    ~ In name toolNames ->
    let r := run w tick (handle cfg (CallTool name args)) in
    outcome r = Returns (errorContent ("Error executing " ++ name
                                         ++ ": Unknown tool: " ++ name))
    /\ (forall result, outcome r = Returns result -> isError result = true)
    /\ invokedOf (trace r) = []
    /\ trace r = []
    /\ ticks r = tick.
Proof.
  intros cfg w tick name args Hnot.
  rewrite toolNames_eq in Hnot.
  repeat match type of Hnot with
         | ~ In _ (_ :: _) =>
             let E := fresh "E" in
             apply not_in_cons_eqb in Hnot as [E Hnot]
         end.
  cbv zeta. unfold handle, callTool.
  rewrite E, E0, E1, E2, E3, E4. cbn.
  repeat split.
  intros result Hres. injection Hres as <-. reflexivity.
Qed.

Lemma unknown_tool_is_error_witness :
  ~ In "delete_everything" toolNames
  /\ forall w tick,
      outcome (run w tick (handle (config None) (CallTool "delete_everything" (obj []))))
      = Returns (errorContent
                   "Error executing delete_everything: Unknown tool: delete_everything").
Proof.
  assert (Hnot : ~ In "delete_everything" toolNames).
  { rewrite toolNames_eq. not_in_list. }
  split; [exact Hnot |].
  intros w tick.
  exact (proj1 (unknown_tool_is_error (config None) w tick "delete_everything"
                  (obj []) Hnot)).
Defined.

(** ** Review commands *)

Lemma ownProperty_absent (key : string) (entries : list (string * string)) :
  ~ In key (map fst entries) -> ownProperty key entries = None.
Proof.
  induction entries as [|[k v] rest IH]; intros H; [reflexivity |].
  simpl in *. destruct (String.eqb_spec key k) as [-> | _].
  - exfalso. apply H. now left.
  - apply IH. intros Hin. apply H. now right.
Qed.

(** A context that converts to a string, as every string and every falsy
    value does, lets the mapping be built. *)
Lemma commandMapping_convertible (context : JsVal) (c : string) :
  toString context = Some c ->
  exists rule given, commandMapping context = Ret (mappingFor rule given).
Proof.
  intros Hc. unfold commandMapping, or_else, convert.
  destruct (truthy context); [rewrite Hc |]; cbn [toString str bind];
    do 2 eexists; reflexivity.
Qed.

(** A context that does not convert makes building the mapping throw. *)
Lemma commandMapping_inconvertible (context : JsVal) :
  toString context = None -> commandMapping context = Throw cannotConvert.
Proof.
  intros Hc. unfold commandMapping, or_else, convert.
  destruct context as [ | | [|] | t | s | xs | ps]; try discriminate Hc;
    cbn [truthy]; rewrite Hc; reflexivity.
Qed.

(** What [sendReviewCommand] does on an argument object whose context
    converts and whose command is a string. *)
Lemma sendReviewCommand_string_command (props : list (string * JsVal)) (c s : string) :
  toString (lookup "context" props) = Some c ->
  lookup "command" props = str s ->
  exists rule given,
    commandOf (lookup "context" props) (lookup "command" props)
    = Ret (mappingAt (mappingFor rule given) s)
    /\ sendReviewCommand (obj props)
       = (suffix <- targetFilesSuffix (lookup "targetFiles" props) ;;
          Ret (textContent
                 (commandText (propertyToString (mappingAt (mappingFor rule given) s))
                              suffix))).
Proof.
  intros Hc Hs. destruct (commandMapping_convertible _ _ Hc) as (rule & given & Hm).
  exists rule, given. unfold commandOf, sendReviewCommand, obj.
  cbn [getProp bind]. rewrite Hm, Hs. split; reflexivity.
Qed.




(** C10, as the claim states it, fails: a command that names a property
    every object inherits ("toString") prints that built-in function, not
    "undefined"; a [targetFiles] that is not an array makes the handler
    throw, so the router answers with an error; and so does a [context],
    or an element of [targetFiles], that cannot be converted to a
    string. *)
Lemma unlisted_command_counterexample :
  (~ In "toString" commandEnum
   /\ forall cfg w tick,
       outcome (run w tick (handle cfg (CallTool "send_review_command"
                                          (obj [("command", str "toString")]))))
       = Returns (textContent (commandText "function toString() { [native code] }" ""))
       /\ includes "undefined" (commandText "function toString() { [native code] }" "")
          = false)
  /\ (~ In "deploy" commandEnum
      /\ forall cfg w tick,
          outcome (run w tick (handle cfg (CallTool "send_review_command"
                                             (obj [("command", str "deploy");
                                                   ("targetFiles", str "src/a.ts")]))))
          = Returns (errorContent
                       "Error executing send_review_command: args.targetFiles.join is not a function")
          /\ isError (errorContent
                        "Error executing send_review_command: args.targetFiles.join is not a function")
             = true)
  /\ (forall cfg w tick,
         outcome (run w tick (handle cfg (CallTool "send_review_command"
                                            (obj [("command", str "deploy");
                                                  ("context", obj [("toString", num "1")])]))))
         = Returns (errorContent
                      "Error executing send_review_command: Cannot convert object to primitive value")
         /\ outcome (run w tick (handle cfg (CallTool "send_review_command"
                                               (obj [("command", str "deploy");
                                                     ("targetFiles",
                                                      arr [str "a.ts";
                                                           obj [("toString", num "1")]])]))))
            = Returns (errorContent
                         "Error executing send_review_command: Cannot convert object to primitive value")).
Proof.
  split; [| split]; try (split; [not_in_list |]);
    intros cfg w tick; split; reflexivity.
Qed.

(** C10, amended: when [command] is a string outside the five enumerated
    values that names no property inherited from [Object.prototype],
    [context] is absent or converts to a string, and [targetFiles] is
    falsy or an array whose elements convert to strings, the call is not
    rejected: the handler is entered and the result is success-shaped with
    "undefined" in the place of the directive. *)
Theorem unlisted_command_prints_undefined :
  forall (cfg : CodeRabbitConfig) (w : World) (tick : nat)
         (props : list (string * JsVal)) (s c : string),
    lookup "command" props = str s ->
    ~ In s commandEnum ->
    inheritedProperty s = PUndefined ->
    toString (lookup "context" props) = Some c ->
    (truthy (lookup "targetFiles" props) = false
     \/ exists files joined,
         lookup "targetFiles" props = arr files
         /\ joinElems ", " files = Some joined) ->
    exists suffix : string,
      run w tick (handle cfg (CallTool "send_review_command" (obj props)))
      = {| outcome := Returns (textContent (commandText "undefined" suffix));
           trace := [EvInvoke "sendReviewCommand"];
           ticks := tick |}
      /\ isError (textContent (commandText "undefined" suffix)) = false
      /\ startsWith "CodeRabbit Command: undefined"
           (resultText (textContent (commandText "undefined" suffix))) = true.
Proof.
  intros cfg w tick props s c Hcmd Hnot Hinh Hc Hfiles.
  destruct (sendReviewCommand_string_command props c s Hc Hcmd)
    as (rule & given & _ & Hsend).
  assert (Hdir : mappingAt (mappingFor rule given) s = PUndefined).
  { unfold mappingAt.
    rewrite ownProperty_absent by (rewrite commandMapping_keys; exact Hnot).
    exact Hinh. }
  assert (Hsuffix : exists suffix,
             targetFilesSuffix (lookup "targetFiles" props) = Ret suffix).
  { unfold targetFilesSuffix. destruct Hfiles as [Hf | (files & joined & Hf & Hj)];
      rewrite Hf.
    - eexists; reflexivity.
    - unfold arr. cbn [truthy joinOn]. rewrite Hj. eexists; reflexivity. }
  destruct Hsuffix as [suffix Hsuffix]. exists suffix.
  split; [| split; reflexivity].
  unfold handle, callTool. cbn [String.eqb Ascii.eqb Bool.eqb].
  rewrite Hsend, Hdir, Hsuffix. reflexivity.
Qed.

Lemma unlisted_command_prints_undefined_witness :
  exists suffix : string,
    run {| clock := fun _ => ""; network := fun _ _ => Rejected (JsError "offline") |} 0
        (handle (config None)
           (CallTool "send_review_command"
              (obj [("command", str "deploy"); ("targetFiles", strs ["a.ts"; "b.ts"])])))
    = {| outcome := Returns (textContent (commandText "undefined" suffix));
         trace := [EvInvoke "sendReviewCommand"];
         ticks := 0 |}.
Proof.
  destruct (unlisted_command_prints_undefined
              (config None)
              {| clock := fun _ => ""; network := fun _ _ => Rejected (JsError "offline") |}
              0
              [("command", str "deploy"); ("targetFiles", strs ["a.ts"; "b.ts"])]
              "deploy" "undefined" eq_refl ltac:(not_in_list) eq_refl eq_refl
              (or_intror (ex_intro _ [str "a.ts"; str "b.ts"]
                            (ex_intro _ "a.ts, b.ts" (conj eq_refl eq_refl)))))
    as [suffix [Hrun _]].
  exists suffix. exact Hrun.
Defined.

(** ** Running the router *)

Lemma run_tryCatch_ret {A : Type} (w : World) (p : Prog A) (h : Thrown -> A) :
  forall tick,
    run w tick (tryCatch p (fun e => Ret (h e)))
    = {| outcome := match outcome (run w tick p) with
                    | Returns a => Returns a
                    | Throws e => Returns (h e)
                    end;
         trace := trace (run w tick p);
         ticks := ticks (run w tick p) |}.
Proof.
  induction p as [a | e | n k IH | k IH | rq k IH]; intros tick; cbn.
  - reflexivity.
  - reflexivity.
  - now rewrite IH.
  - now rewrite IH.
  - now rewrite IH.
Qed.

Lemma run_callTool_generate_report cfg args w tick :
  run w tick (handle cfg (CallTool "generate_report" args))
  = let r := run w tick (generateReport cfg args) in
    {| outcome := match outcome r with
                  | Returns a => Returns a
                  | Throws e => Returns (routerError "generate_report" e)
                  end;
       trace := EvInvoke "generateReport" :: trace r;
       ticks := ticks r |}.
Proof.
  unfold handle, callTool. cbn [String.eqb Ascii.eqb Bool.eqb].
  rewrite (run_tryCatch_ret w _ (routerError "generate_report")). reflexivity.
Qed.

Lemma run_callTool_check_health cfg args w tick :
  run w tick (handle cfg (CallTool "check_health" args))
  = let r := run w tick (checkHealth args) in
    {| outcome := match outcome r with
                  | Returns a => Returns a
                  | Throws e => Returns (routerError "check_health" e)
                  end;
       trace := EvInvoke "checkHealth" :: trace r;
       ticks := ticks r |}.
Proof.
  unfold handle, callTool. cbn [String.eqb Ascii.eqb Bool.eqb].
  rewrite (run_tryCatch_ret w _ (routerError "check_health")). reflexivity.
Qed.

(** ** Report generation *)

Lemma truthy_VStr (s : string) : truthy (VStr s) = negb (s =? "").
Proof. reflexivity. Qed.

Lemma run_generateReport_without_key cfg args w tick :
  apiKey cfg = "" ->
  run w tick (generateReport cfg args)
  = {| outcome := Throws (JsError apiKeyMissing); trace := []; ticks := tick |}.
Proof. intros H. unfold generateReport. rewrite truthy_VStr, H. reflexivity. Qed.

Lemma run_generateReport_with_key cfg props w tick :
  apiKey cfg <> "" ->
  run w tick (generateReport cfg (obj props))
  = let rq := reportRequest cfg (lookup "from" props) (lookup "to" props) in
    {| outcome := reportCompletion (network w tick rq);
       trace := [EvHttp rq];
       ticks := S tick |}.
Proof.
  intros H. unfold generateReport. rewrite truthy_VStr.
  apply String.eqb_neq in H. rewrite H. cbn.
  destruct (network w tick _) as [response | [m | m response | v]];
    try reflexivity.
  cbn. unfold convert.
  destruct (toString (or_else (responseDataMessage response) (VStr m))); reflexivity.
Qed.

(** C1, as the claim states it, fails: with an API key configured, a
    [generate_report] call whose arguments lack [to] enters the handler and
    sends the request to the upstream report endpoint, with [to]
    undefined. *)
Lemma missing_to_counterexample :
  lookup "to" [("from", str "2024-01-01")] = VUndefined
  /\ forall w tick,
      let cfg := config (Some "cr-key") in
      let r := run w tick (handle cfg (CallTool "generate_report"
                                         (obj [("from", str "2024-01-01")]))) in
      invokedOf (trace r) = ["generateReport"]
      /\ requestsOf (trace r) = [reportRequest cfg (str "2024-01-01") VUndefined]
      /\ url (reportRequest cfg (str "2024-01-01") VUndefined)
         = "https://api.coderabbit.ai/api/v1/report.generate".
Proof.
  split; [reflexivity |]. intros w tick. cbv zeta.
  rewrite run_callTool_generate_report.
  rewrite run_generateReport_with_key by discriminate.
  repeat split.
Qed.

(** C1, amended: a [generate_report] call whose argument object lacks [to]
    is not validated; the handler is entered.  Without an API key it throws
    the key error, which the router returns as an error-shaped result, and
    no request is sent.  With an API key exactly one request is sent, the
    POST to the report endpoint with the given [from] and an undefined
    [to], and the result is the upstream body on a response and an
    error-shaped result otherwise. *)
Theorem missing_to_reaches_handler :
  forall (cfg : CodeRabbitConfig) (props : list (string * JsVal)) (w : World) (tick : nat),
    lookup "to" props = VUndefined ->
    let r := run w tick (handle cfg (CallTool "generate_report" (obj props))) in
    let rq := reportRequest cfg (lookup "from" props) VUndefined in
    invokedOf (trace r) = ["generateReport"]
    /\ (apiKey cfg = "" ->
        outcome r = Returns (errorContent ("Error executing generate_report: " ++ apiKeyMissing))
        /\ requestsOf (trace r) = [])
    /\ (apiKey cfg <> "" ->
        requestsOf (trace r) = [rq]
        /\ method rq = POST
        /\ url rq = baseUrl cfg ++ "/report.generate"
        /\ outcome r = match reportCompletion (network w tick rq) with
                       | Returns a => Returns a
                       | Throws e => Returns (routerError "generate_report" e)
                       end).
Proof.
  intros cfg props w tick Hto. cbv zeta.
  rewrite run_callTool_generate_report.
  destruct (String.eqb_spec (apiKey cfg) "") as [Hk | Hk].
  - rewrite (run_generateReport_without_key _ _ _ _ Hk). cbn.
    split; [reflexivity |]. split; intros Hk'; [| contradiction].
    split; reflexivity.
  - rewrite (run_generateReport_with_key _ _ _ _ Hk), Hto. cbn.
    split; [reflexivity |]. split; intros Hk'; [contradiction |].
    repeat split.
Qed.

Lemma missing_to_reaches_handler_witness :
  lookup "to" [("from", str "2024-01-01")] = VUndefined
  /\ outcome (run {| clock := fun _ => ""; network := fun _ _ => Rejected (JsError "offline") |}
                  0 (handle (config None)
                       (CallTool "generate_report" (obj [("from", str "2024-01-01")]))))
     = Returns (errorContent ("Error executing generate_report: " ++ apiKeyMissing)).
Proof.
  split; [reflexivity |].
  exact (proj1 (proj1 (proj2 (missing_to_reaches_handler
           (config None) [("from", str "2024-01-01")]
           {| clock := fun _ => ""; network := fun _ _ => Rejected (JsError "offline") |}
           0 eq_refl)) eq_refl)).
Defined.

(** ** Health check *)

Lemma includes_self (n : string) : includes n n = true.
Proof. rewrite <- (append_nil_r n) at 2. apply includes_here. Qed.

(** [checkHealth] on an argument object whose agent URL converts to the
    text [u]: one probe, and a text result either way. *)
Lemma run_checkHealth_convertible props u w tick :
  toString (agentUrlOf props) = Some u ->
  run w tick (checkHealth (obj props))
  = {| outcome := Returns (textContent (healthText u (network w tick (healthRequest u))));
       trace := [EvHttp (healthRequest u)];
       ticks := S tick |}.
Proof.
  intros Hu. unfold checkHealth, obj. cbn [getProp bind]. fold (agentUrlOf props).
  unfold convert. rewrite Hu. cbn.
  destruct (network w tick _) as [response | e]; reflexivity.
Qed.

(** When the agent URL does not convert, the template of the [try] throws
    before the probe and the template of the [catch] throws again. *)
Lemma run_checkHealth_inconvertible props w tick :
  toString (agentUrlOf props) = None ->
  run w tick (checkHealth (obj props))
  = {| outcome := Throws cannotConvert; trace := []; ticks := tick |}.
Proof.
  intros Hu. unfold checkHealth, obj. cbn [getProp bind]. fold (agentUrlOf props).
  unfold convert. rewrite Hu. reflexivity.
Qed.

Lemma healthText_unhealthy_mentions (u : string) (e : Thrown) :
  includes u (healthText u (Rejected e)) = true
  /\ includes (errorMessage e) (healthText u (Rejected e)) = true.
Proof.
  unfold healthText. split.
  - do 6 apply includes_after. apply includes_here.
  - do 9 apply includes_after. apply includes_self.
Qed.

(** C2, on the code: every request [checkHealth] awaits carries the axios
    option [timeout: 5000] (it is the probe of the agent URL, when that
    converts to a string); the request [generateReport] awaits carries no
    timeout at all, so nothing bounds the wait for the report endpoint. *)
Theorem report_request_has_no_timeout :
  forall (cfg : CodeRabbitConfig) (props : list (string * JsVal)) (w : World) (tick : nat),
    apiKey cfg <> "" ->
    Forall (fun rq => timeout rq = Some 5000%Z)
           (requestsOf (trace (run w tick (checkHealth (obj props)))))
    /\ (forall u, toString (agentUrlOf props) = Some u ->
                  requestsOf (trace (run w tick (checkHealth (obj props))))
                  = [healthRequest u])
    /\ (exists rq, requestsOf (trace (run w tick (generateReport cfg (obj props)))) = [rq]
                   /\ url rq = baseUrl cfg ++ "/report.generate"
                   /\ timeout rq = None).
Proof.
  intros cfg props w tick Hk. split; [| split].
  - destruct (toString (agentUrlOf props)) as [u |] eqn:Hu.
    + rewrite (run_checkHealth_convertible _ _ _ _ Hu). repeat constructor.
    + rewrite (run_checkHealth_inconvertible _ _ _ Hu). constructor.
  - intros u Hu. now rewrite (run_checkHealth_convertible _ _ _ _ Hu).
  - rewrite (run_generateReport_with_key _ _ _ _ Hk). eexists. repeat split.
Qed.

Lemma report_request_has_no_timeout_witness :
  apiKey (config (Some "cr-key")) <> ""
  /\ exists rq,
      requestsOf (trace (run {| clock := fun _ => "";
                                network := fun _ _ => Rejected (JsError "offline") |} 0
                             (generateReport (config (Some "cr-key"))
                                (obj [("from", str "2024-01-01"); ("to", str "2024-01-31")]))))
      = [rq]
      /\ url rq = "https://api.coderabbit.ai/api/v1/report.generate"
      /\ timeout rq = None.
Proof.
  assert (Hk : apiKey (config (Some "cr-key")) <> "") by discriminate.
  split; [exact Hk |].
  exact (proj2 (proj2 (report_request_has_no_timeout
                  (config (Some "cr-key"))
                  [("from", str "2024-01-01"); ("to", str "2024-01-31")]
                  {| clock := fun _ => ""; network := fun _ _ => Rejected (JsError "offline") |}
                  0 Hk))).
Defined.

(** C6, on the code: given an argument object whose agent URL (or the
    default) converts to a string, [checkHealth] does not throw; its result
    is success-shaped and, when the probe fails, names the URL that was
    tried and the reason.  But a [check_health] call without an
    [arguments] member makes it throw before the probe, at
    [args.agentUrl], and the router answers with an error-shaped result;
    and so does an agent URL that cannot be converted to a string, which
    throws in the [try] and again in the [catch]. *)
Theorem checkHealth_throws_without_arguments :
  forall (cfg : CodeRabbitConfig) (w : World) (tick : nat),
    (forall (props : list (string * JsVal)) (u : string),
        toString (agentUrlOf props) = Some u ->
        let answer := network w tick (healthRequest u) in
        outcome (run w tick (checkHealth (obj props)))
        = Returns (textContent (healthText u answer))
        /\ isError (textContent (healthText u answer)) = false
        /\ (forall e, answer = Rejected e ->
                      includes u (healthText u answer) = true
                      /\ includes (errorMessage e) (healthText u answer) = true))
    /\ run w tick (checkHealth VUndefined)
       = {| outcome := Throws (JsError
                         "Cannot read properties of undefined (reading 'agentUrl')");
            trace := [];
            ticks := tick |}
    /\ run w tick (handle cfg (CallTool "check_health" VUndefined))
       = {| outcome := Returns (errorContent
                         "Error executing check_health: Cannot read properties of undefined (reading 'agentUrl')");
            trace := [EvInvoke "checkHealth"];
            ticks := tick |}
    /\ isError (errorContent
                  "Error executing check_health: Cannot read properties of undefined (reading 'agentUrl')")
       = true
    /\ (forall props : list (string * JsVal),
           toString (agentUrlOf props) = None ->
           run w tick (handle cfg (CallTool "check_health" (obj props)))
           = {| outcome := Returns (errorContent
                             "Error executing check_health: Cannot convert object to primitive value");
                trace := [EvInvoke "checkHealth"];
                ticks := tick |}).
Proof.
  intros cfg w tick. split; [| split; [| split; [| split]]]; try reflexivity.
  - intros props u Hu. cbv zeta. rewrite (run_checkHealth_convertible _ _ _ _ Hu).
    cbn [outcome]. split; [reflexivity |]. split; [reflexivity |].
    intros e ->. apply healthText_unhealthy_mentions.
  - intros props Hu.
    rewrite run_callTool_check_health, (run_checkHealth_inconvertible _ _ _ Hu).
    reflexivity.
Qed.

(** ** Pull-request analysis *)

Lemma run_analyzePullRequest_object props w tick :
  run w tick (analyzePullRequest (obj props))
  = {| outcome := Returns (textContent
                    ("Pull Request Analysis Complete" ++ nl ++ nl
                       ++ stringify2 (analysisOf (lookup "repository" props)
                                                 (lookup "pullRequestNumber" props)
                                                 (clock w tick))));
       trace := [EvClock];
       ticks := S tick |}.
Proof. reflexivity. Qed.

(** C4, as the claim states it, fails: the payload carries the time of the
    call, so the same request served twice in a row gets two different
    payloads. *)
Lemma analysis_not_deterministic_counterexample :
  exists first second : JsVal,
    serve (config None)
          {| clock := fun n => match n with
                               | 0 => "2024-01-01T00:00:00.000Z"
                               | _ => "2024-01-01T00:00:01.000Z"
                               end;
             network := fun _ _ => Rejected (JsError "offline") |}
          0
          [CallTool "analyze_pull_request"
             (obj [("repository", str "o/r"); ("pullRequestNumber", num "7")]);
           CallTool "analyze_pull_request"
             (obj [("repository", str "o/r"); ("pullRequestNumber", num "7")])]
    = ([Returns first; Returns second],
       [EvInvoke "analyzePullRequest"; EvClock; EvInvoke "analyzePullRequest"; EvClock],
       2)
    /\ first <> second
    /\ includes "2024-01-01T00:00:00.000Z" (resultText first) = true
    /\ includes "2024-01-01T00:00:01.000Z" (resultText second) = true.
Proof.
  do 2 eexists. split; [reflexivity |]. split; [| split; vm_compute; reflexivity].
  intros H. apply (f_equal resultText) in H. vm_compute in H. discriminate H.
Qed.

(** *** Quoting and serialising lose nothing *)

Lemma unescapeHead_escapeChar (c : ascii) (rest : string) :
  unescapeHead (escapeChar c ++ rest) = Some (c, rest).
Proof. destruct c as [[] [] [] [] [] [] [] []]; reflexivity. Qed.

Lemma escape_injective (s1 : string) :
  forall s2, escape s1 = escape s2 -> s1 = s2.
Proof.
  induction s1 as [|c1 r1 IH]; intros [|c2 r2] H; cbn [escape] in H;
    try reflexivity;
    apply (f_equal unescapeHead) in H;
    rewrite ?unescapeHead_escapeChar in H; try discriminate H.
  injection H as -> Hr. now rewrite (IH _ Hr).
Qed.

Lemma append_cancel_l (a x y : string) : a ++ x = a ++ y -> x = y.
Proof.
  induction a as [|c a IH]; cbn; intros H; [exact H | injection H as H; auto].
Qed.

Lemma length_append (a b : string) :
  String.length (a ++ b) = String.length a + String.length b.
Proof. induction a as [|c a IH]; cbn; [reflexivity | now rewrite IH]. Qed.

Lemma append_cancel_r (s x : string) : forall y, x ++ s = y ++ s -> x = y.
Proof.
  induction x as [|c x IH]; intros [|d y] H; cbn in H.
  - reflexivity.
  - apply (f_equal String.length) in H. cbn in H. rewrite length_append in H. lia.
  - apply (f_equal String.length) in H. cbn in H. rewrite length_append in H. lia.
  - injection H as -> H. now rewrite (IH _ H).
Qed.

Lemma quoteJSON_injective (s1 s2 : string) : quoteJSON s1 = quoteJSON s2 -> s1 = s2.
Proof.
  unfold quoteJSON, q. intros H.
  apply append_cancel_l, append_cancel_r in H. now apply escape_injective.
Qed.

Lemma stringify_VObj (ind : string) (ps : list (string * JsVal)) :
  stringify ind (VObj ps) = Some (braces ind (membersOf (ind ++ "  ") ps)).
Proof.
  cbn [stringify]. unfold braces.
  match goal with
  | |- Some (match ?f ps with _ => _ end) = _ =>
      assert (E : forall l, f l = membersOf (ind ++ "  ") l)
  end.
  { induction l as [|[k x] l IH]; [reflexivity |].
    cbn [membersOf]. rewrite <- IH. reflexivity. }
  rewrite E. destruct (membersOf (ind ++ "  ") ps); reflexivity.
Qed.

Lemma braces_nonempty (ind : string) (parts : list string) :
  parts <> [] ->
  braces ind parts
  = "{" ++ nl ++ (ind ++ "  ") ++ join ("," ++ nl ++ (ind ++ "  ")) parts ++ nl ++ ind ++ "}".
Proof. destruct parts; [congruence | reflexivity]. Qed.

Lemma join_cons (sep a : string) (l : list string) :
  l <> [] -> join sep (a :: l) = a ++ sep ++ join sep l.
Proof. destruct l; [congruence | reflexivity]. Qed.

Lemma join_middle (sep x y : string) (before after : list string) :
  join sep (before ++ x :: y :: after)%list
  = concatStrings (map (fun a => a ++ sep) before) ++ x ++ sep ++ join sep (y :: after).
Proof.
  induction before as [|a before IH]; [reflexivity |].
  cbn [List.app map concatStrings].
  rewrite join_cons by (destruct before; discriminate).
  now rewrite IH, !append_assoc.
Qed.

(** The printed analysis is the quoted timestamp between two texts that do
    not depend on it. *)
Lemma stringify2_analysis_shape (r p : JsVal) :
  exists P S : string, forall t,
    stringify2 (analysisOf r p t) = P ++ quoteJSON t ++ S.
Proof.
  pose (step := "" ++ "  ").
  pose (sep := "," ++ nl ++ step).
  pose (before := membersOf step [("repository", r); ("pullRequest", p)]).
  assert (Htail : exists y after, membersOf step analysisFixedPart = y :: after)
    by (do 2 eexists; reflexivity).
  destruct Htail as (y & after & Htail).
  exists ("{" ++ nl ++ step ++ concatStrings (map (fun a => a ++ sep) before)
              ++ quoteJSON "timestamp" ++ ": ").
  exists (sep ++ join sep (y :: after) ++ nl ++ "" ++ "}").
  intros t. unfold stringify2, analysisOf, obj.
  rewrite stringify_VObj. fold step.
  assert (E : membersOf step (("repository", r) :: ("pullRequest", p)
                                :: ("timestamp", str t) :: analysisFixedPart)
              = (before ++ (quoteJSON "timestamp" ++ ": " ++ quoteJSON t)%string
                        :: y :: after)%list).
  { rewrite <- Htail. subst before. cbn [membersOf].
    destruct (stringify step r), (stringify step p); reflexivity. }
  rewrite E, braces_nonempty by (destruct before; discriminate).
  fold step. fold sep. rewrite join_middle.
  now rewrite !append_assoc.
Qed.

Lemma stringify2_analysis_timestamp (r p : JsVal) (t1 t2 : string) :
  stringify2 (analysisOf r p t1) = stringify2 (analysisOf r p t2) -> t1 = t2.
Proof.
  destruct (stringify2_analysis_shape r p) as (P & S & Hshape).
  rewrite !Hshape. intros H.
  apply append_cancel_l, append_cancel_r in H. now apply quoteJSON_injective.
Qed.

(** C4, amended: the payload is fixed by [repository], [pullRequestNumber]
    and the clock reading of the call, and by nothing else: two calls that
    agree on the two arguments get the same payload exactly when their
    clock readings agree.  The payload is a success-shaped result holding
    the analysis object; [reviewInstructions] plays no part and no request
    is sent. *)
Theorem analysis_fixed_by_arguments_and_clock :
  forall (props1 props2 : list (string * JsVal)) (w1 w2 : World) (t1 t2 : nat),
    lookup "repository" props1 = lookup "repository" props2 ->
    lookup "pullRequestNumber" props1 = lookup "pullRequestNumber" props2 ->
    (outcome (run w1 t1 (analyzePullRequest (obj props1)))
     = outcome (run w2 t2 (analyzePullRequest (obj props2)))
     <-> clock w1 t1 = clock w2 t2)
    /\ outcome (run w1 t1 (analyzePullRequest (obj props1)))
       = Returns (textContent
                    ("Pull Request Analysis Complete" ++ nl ++ nl
                       ++ stringify2 (analysisOf (lookup "repository" props1)
                                                 (lookup "pullRequestNumber" props1)
                                                 (clock w1 t1))))
    /\ requestsOf (trace (run w1 t1 (analyzePullRequest (obj props1)))) = [].
Proof.
  intros props1 props2 w1 w2 t1 t2 Hrepo Hpr.
  rewrite !run_analyzePullRequest_object. cbn [outcome trace requestsOf].
  rewrite Hrepo, Hpr. split; [| split; reflexivity].
  split.
  - intros H. injection H as H.
    now apply stringify2_analysis_timestamp in H.
  - intros ->. reflexivity.
Qed.

Lemma analysis_fixed_by_arguments_and_clock_witness :
  outcome (run {| clock := fun _ => "2024-01-01T00:00:00.000Z";
                  network := fun _ _ => Rejected (JsError "offline") |} 0
               (analyzePullRequest
                  (obj [("repository", str "o/r"); ("pullRequestNumber", num "7")])))
  = outcome (run {| clock := fun _ => "2024-01-01T00:00:00.000Z";
                    network := fun _ _ => Resolved {| status := 200; statusText := "OK";
                                                     data := VNull |} |} 5
                 (analyzePullRequest
                    (obj [("pullRequestNumber", num "7"); ("repository", str "o/r");
                          ("reviewInstructions", str "be strict")]))).
Proof.
  exact (proj2 (proj1 (analysis_fixed_by_arguments_and_clock
                  [("repository", str "o/r"); ("pullRequestNumber", num "7")]
                  [("pullRequestNumber", num "7"); ("repository", str "o/r");
                   ("reviewInstructions", str "be strict")]
                  {| clock := fun _ => "2024-01-01T00:00:00.000Z";
                     network := fun _ _ => Rejected (JsError "offline") |}
                  {| clock := fun _ => "2024-01-01T00:00:00.000Z";
                     network := fun _ _ => Resolved {| status := 200; statusText := "OK";
                                                      data := VNull |} |}
                  0 5 eq_refl eq_refl)) eq_refl).
Defined.

(** ** Review configuration *)

Lemma appendInstruction_encoded (yaml : string) (p : PathInstruction) :
  appendInstruction yaml (encodeInstruction p) = Ret (yaml ++ instructionBlock p).
Proof.
  unfold appendInstruction, encodeInstruction, instructionBlock, obj, str, convert.
  cbn [getProp lookup String.eqb Ascii.eqb Bool.eqb bind replaceOn toString].
  now rewrite !append_assoc.
Qed.

Lemma forEachM_instructions (ps : list PathInstruction) :
  forall yaml : string,
    forEachM appendInstruction (map encodeInstruction ps) yaml
    = Ret (yaml ++ concatStrings (map instructionBlock ps)).
Proof.
  induction ps as [|p ps IH]; intros yaml; cbn [map forEachM concatStrings].
  - now rewrite append_nil_r.
  - rewrite appendInstruction_encoded. cbn [bind].
    rewrite IH. now rewrite append_assoc.
Qed.

Lemma forEachM_entries (l : list string) :
  forall yaml : string,
    forEachM (fun yaml dir => text <- convert dir ;;
                              Ret (yaml ++ "        - " ++ q text ++ nl))
             (map VStr l) yaml
    = Ret (yaml ++ concatStrings (map entryLine l)).
Proof.
  induction l as [|d l IH]; intros yaml;
    cbn [map forEachM concatStrings bind convert toString].
  - now rewrite append_nil_r.
  - rewrite IH. unfold entryLine. now rewrite !append_assoc.
Qed.

Lemma appendEntries_encoded (expr heading : string) (ds : option (list string))
      (yaml : string) :
  appendEntries expr heading (valueOr (option_map strs ds)) yaml
  = Ret (yaml ++ entriesBlock heading ds).
Proof.
  destruct ds as [l |]; cbn [option_map valueOr entriesBlock].
  - unfold appendEntries, strs. cbn [truthy forEach].
    rewrite forEachM_entries. now rewrite append_assoc.
  - unfold appendEntries. cbn [truthy]. now rewrite append_nil_r.
Qed.

Lemma lookup_encodeAstGrep (a : AstGrep) :
  let props := present [("essentialRules", option_map VBool (essentialRules a));
                        ("ruleDirs", option_map strs (ruleDirs a));
                        ("utilDirs", option_map strs (utilDirs a));
                        ("packages", option_map strs (packages a))] in
  lookup "essentialRules" props = valueOr (option_map VBool (essentialRules a))
  /\ lookup "ruleDirs" props = valueOr (option_map strs (ruleDirs a))
  /\ lookup "utilDirs" props = valueOr (option_map strs (utilDirs a))
  /\ lookup "packages" props = valueOr (option_map strs (packages a)).
Proof.
  destruct a as [[e |] [r |] [u |] [p |]]; repeat split; reflexivity.
Qed.

Lemma astGrep_section (a : AstGrep) (yaml : string) :
  (let astGrep := encodeAstGrep a in
   let yaml := yaml ++ nl ++ "  tools:" ++ nl ++ "    ast-grep:" ++ nl in
   essentialRules <- getProp astGrep "essentialRules" ;;
   let yaml := if truthy essentialRules
               then yaml ++ "      essential_rules: true" ++ nl
               else yaml in
   ruleDirs <- getProp astGrep "ruleDirs" ;;
   yaml <- appendEntries "config.tools.astGrep.ruleDirs"
                         ("      rule_dirs:" ++ nl) ruleDirs yaml ;;
   utilDirs <- getProp astGrep "utilDirs" ;;
   yaml <- appendEntries "config.tools.astGrep.utilDirs"
                         ("      util_dirs:" ++ nl) utilDirs yaml ;;
   packages <- getProp astGrep "packages" ;;
   yaml <- appendEntries "config.tools.astGrep.packages"
                         ("      packages:" ++ nl) packages yaml ;;
   Ret yaml)
  = Ret (yaml ++ nl ++ "  tools:" ++ nl ++ "    ast-grep:" ++ nl
           ++ match essentialRules a with
              | Some true => "      essential_rules: true" ++ nl
              | _ => ""
              end
           ++ entriesBlock ("      rule_dirs:" ++ nl) (ruleDirs a)
           ++ entriesBlock ("      util_dirs:" ++ nl) (utilDirs a)
           ++ entriesBlock ("      packages:" ++ nl) (packages a)).
Proof.
  cbv zeta. unfold encodeAstGrep, obj. cbn [getProp bind].
  destruct (lookup_encodeAstGrep a) as (-> & -> & -> & ->).
  rewrite !appendEntries_encoded. cbn [bind].
  rewrite !appendEntries_encoded. cbn [bind].
  rewrite !appendEntries_encoded. cbn [bind].
  f_equal.
  destruct (essentialRules a) as [[|] |]; cbn [option_map valueOr truthy];
    now rewrite ?append_assoc, ?append_nil_r.
Qed.

(** The serialiser computes the document described by [document]. *)
Lemma generateCodeRabbitYaml_document (c : ReviewConfiguration) :
  generateCodeRabbitYaml (encode c) = Ret (document c).
Proof.
  unfold generateCodeRabbitYaml, document, astGrepOf, encode, obj.
  destruct c as [[ps |] [[[a |]] |]];
    cbn [pathInstructions tools astGrep option_map present getProp lookup
         String.eqb Ascii.eqb Bool.eqb bind truthy forEach arr encodeTools
         getPropOpt obj];
    rewrite ?forEachM_instructions; cbn [bind getProp lookup getPropOpt truthy
                                         String.eqb Ascii.eqb Bool.eqb];
    try (fold (encodeAstGrep a); change (VObj ?x) with (obj x));
    try rewrite astGrep_section;
    now rewrite ?append_assoc, ?append_nil_r.
Qed.

Lemma includes_concat {A : Type} (g : A -> string) (l : list A) (x : A) :
  In x l -> includes (g x) (concatStrings (map g l)) = true.
Proof.
  induction l as [|y l IH]; intros Hin; [destruct Hin |].
  cbn [map concatStrings]. destruct Hin as [-> | Hin].
  - apply includes_here.
  - apply includes_after, IH, Hin.
Qed.

Lemma replaceNewlines_single_line (by_ s : string) :
  includes nl s = false -> replaceNewlines by_ s = s.
Proof.
  induction s as [|c s IH]; intros H; [reflexivity |].
  cbn [includes] in H. apply orb_false_iff in H as [Hc Hs].
  cbn [replaceNewlines]. unfold nl in Hc. cbn [startsWith] in Hc.
  rewrite andb_true_r, Ascii.eqb_sym in Hc. rewrite Hc, (IH Hs). reflexivity.
Qed.

(** Finds a piece of text inside a document built with [++]. *)
Ltac locate :=
  solve [ apply includes_self
        | apply includes_here
        | apply includes_concat; assumption
        | apply includes_before; locate
        | apply includes_after; locate ].

(** C3, as the claim states it, fails: [essentialRules: false] is a field
    present in the input, yet the document has no line for it. *)
Lemma configuration_not_one_to_one_counterexample :
  let c := {| pathInstructions := None;
              tools := Some {| astGrep := Some {| essentialRules := Some false;
                                                  ruleDirs := Some ["rules"];
                                                  utilDirs := None;
                                                  packages := None |} |} |} in
  let yaml := lines ["# CodeRabbit Configuration"; "";
                     "";
                     "  tools:";
                     "    ast-grep:";
                     "      rule_dirs:";
                     "        - " ++ q "rules";
                     ""] in
  lookup "essentialRules"
         (match getPropOpt (getPropOpt (encode c) "tools") "astGrep" with
          | VObj props => props
          | _ => []
          end) = VBool false
  /\ generateCodeRabbitYaml (encode c) = Ret yaml
  /\ includes "essential" yaml = false
  /\ includes "false" yaml = false.
Proof. cbv zeta. repeat split. Qed.

(** C3, amended: for every configuration of the declared shape, and a
    repository name that is a string, the handler succeeds and its document
    holds, in input order, one block per path
    instruction (the path between quotes, the instructions as a block
    scalar, verbatim when they are a single line), and for the ast-grep
    settings the line [essential_rules: true] when [essentialRules] is
    true (nothing when it is false or absent) and, under their headings,
    one quoted line per entry of [ruleDirs], [utilDirs] and [packages]. *)
Theorem configuration_document_entries :
  forall c : ReviewConfiguration,
    generateCodeRabbitYaml (encode c) = Ret (document c)
    /\ (forall repository : string,
           configureReviewSettings
             (obj [("repository", str repository); ("configuration", encode c)])
           = Ret (textContent ("CodeRabbit Configuration Generated for "
                                 ++ repository ++ nl ++ nl
                                 ++ "```yaml" ++ nl ++ document c ++ nl ++ "```")))
    /\ (forall ps p,
           pathInstructions c = Some ps -> In p ps ->
           includes (instructionBlock p) (document c) = true
           /\ (includes nl (instructions p) = false ->
               instructionBlock p
               = "    - path: " ++ q (path p) ++ nl
                   ++ "      instructions: |" ++ nl
                   ++ "        " ++ instructions p ++ nl))
    /\ (forall a,
           astGrepOf c = Some a ->
           (essentialRules a = Some true ->
            includes ("      essential_rules: true" ++ nl) (document c) = true)
           /\ (forall l, ruleDirs a = Some l ->
                  includes ("      rule_dirs:" ++ nl ++ concatStrings (map entryLine l))
                           (document c) = true
                  /\ forall d, In d l -> includes (entryLine d) (document c) = true)
           /\ (forall l, utilDirs a = Some l ->
                  includes ("      util_dirs:" ++ nl ++ concatStrings (map entryLine l))
                           (document c) = true
                  /\ forall d, In d l -> includes (entryLine d) (document c) = true)
           /\ (forall l, packages a = Some l ->
                  includes ("      packages:" ++ nl ++ concatStrings (map entryLine l))
                           (document c) = true
                  /\ forall d, In d l -> includes (entryLine d) (document c) = true)).
Proof.
  intros c. split; [apply generateCodeRabbitYaml_document |].
  split; [| split].
  - intros repository. unfold configureReviewSettings, obj.
    cbn [getProp lookup String.eqb Ascii.eqb Bool.eqb bind].
    change (VObj ?x) with (obj x). fold (encode c).
    rewrite generateCodeRabbitYaml_document. reflexivity.
  - intros ps p Hps Hin. split.
    + unfold document. rewrite Hps. locate.
    + intros Hline. unfold instructionBlock.
      now rewrite (replaceNewlines_single_line _ _ Hline).
  - intros a Ha. unfold document. rewrite Ha.
    split; [| split; [| split]].
    + intros ->. locate.
    + intros l Hl. rewrite Hl. unfold entriesBlock at 1.
      split; [rewrite <- append_assoc; locate | intros d Hd; locate].
    + intros l Hl. rewrite Hl. unfold entriesBlock at 2.
      split; [rewrite <- append_assoc; locate | intros d Hd; locate].
    + intros l Hl. rewrite Hl. unfold entriesBlock at 3.
      split; [rewrite <- append_assoc; locate | intros d Hd; locate].
Qed.

(** ** Worked runs

    The two tool calls of the repository's test script, against an agent
    that refuses the connection, and two calls that fail inside a handler. *)

Example test_script_check_health :
  outcome (run {| clock := fun _ => "2025-01-01T00:00:00.000Z";
                  network := fun _ _ =>
                    Rejected (AxiosError "connect ECONNREFUSED 127.0.0.1:8080" None) |} 0
               (handle (config (Some "test-key-for-demo"))
                  (CallTool "check_health" (obj [("agentUrl", str "http://127.0.0.1:8080")]))))
  = Returns (textContent (lines ["CodeRabbit Agent Health Check";
                                 "";
                                 "Status: ❌ Unhealthy";
                                 "URL: http://127.0.0.1:8080";
                                 "Error: connect ECONNREFUSED 127.0.0.1:8080"])).
Proof. reflexivity. Qed.

Example test_script_send_review_command :
  run {| clock := fun _ => "2025-01-01T00:00:00.000Z";
         network := fun _ _ => Rejected (JsError "offline") |} 0
      (handle (config (Some "test-key-for-demo"))
         (CallTool "send_review_command"
            (obj [("command", str "generate docstrings");
                  ("context", str "Focus on public API functions")])))
  = {| outcome := Returns (textContent (lines [
         "CodeRabbit Command: @coderabbitai generate docstrings";
         "";
         "This command can be posted as a comment in your pull request to interact with CodeRabbit."]));
       trace := [EvInvoke "sendReviewCommand"];
       ticks := 0 |}.
Proof. reflexivity. Qed.

Example remember_rule_substitutes_context :
  sendReviewCommand (obj [("command", str "remember rule");
                          ("context", str "enforce camelCase")])
  = Ret (textContent (commandText "@coderabbitai always remember enforce camelCase" "")).
Proof. reflexivity. Qed.

Example upstream_error_is_reported :
  outcome (run {| clock := fun _ => "";
                  network := fun _ _ =>
                    Rejected (AxiosError "Request failed with status code 401"
                                (Some {| status := 401; statusText := "Unauthorized";
                                         data := obj [("message", str "invalid key")] |})) |}
               0
               (handle (config (Some "cr-key"))
                  (CallTool "generate_report"
                     (obj [("from", str "2024-01-01"); ("to", str "2024-01-31")]))))
  = Returns (errorContent "Error executing generate_report: API Error: 401 - invalid key").
Proof. reflexivity. Qed.

Example instruction_without_text_throws :
  outcome (run {| clock := fun _ => ""; network := fun _ _ => Rejected (JsError "offline") |}
               0
               (handle (config None)
                  (CallTool "configure_review_settings"
                     (obj [("repository", str "o/r");
                           ("configuration",
                            obj [("pathInstructions", arr [obj [("path", str "src/**")]])])]))))
  = Returns (errorContent
               "Error executing configure_review_settings: Cannot read properties of undefined (reading 'replace')").
Proof. reflexivity. Qed.

Example stringify_skips_undefined :
  stringify2 (obj [("a", num "1"); ("b", VUndefined); ("c", arr [str "x"; VUndefined])])
  = lines ["{";
           "  " ++ q "a" ++ ": 1,";
           "  " ++ q "c" ++ ": [";
           "    " ++ q "x" ++ ",";
           "    null";
           "  ]";
           "}"].
Proof. reflexivity. Qed.

(** * Further properties of the handlers *)

(** ** Reasoning on programs *)

Lemma Always_weaken {A : Type} (PE PE' : Event -> Prop) (PA PA' : A -> Prop) (p : Prog A) :
  (forall e, PE e -> PE' e) -> (forall a, PA a -> PA' a) ->
  Always PE PA p -> Always PE' PA' p.
Proof.
  intros HE HA. induction p as [a | e | h k IH | k IH | rq k IH]; cbn.
  - apply HA.
  - trivial.
  - intros [H1 H2]. split; auto.
  - intros [H1 H2]. split; auto.
  - intros [H1 H2]. split; auto.
Qed.

Lemma Always_bind {A B : Type} (PE : Event -> Prop) (PA : A -> Prop) (PB : B -> Prop)
      (p : Prog A) (f : A -> Prog B) :
  Always PE PA p -> (forall a, PA a -> Always PE PB (f a)) ->
  Always PE PB (bind p f).
Proof.
  intros Hp Hf. induction p as [a | e | h k IH | k IH | rq k IH]; cbn in *.
  - auto.
  - trivial.
  - destruct Hp as [H1 H2]. split; auto.
  - destruct Hp as [H1 H2]. split; auto.
  - destruct Hp as [H1 H2]. split; auto.
Qed.

Lemma Always_tryCatch {A : Type} (PE : Event -> Prop) (PA : A -> Prop)
      (p : Prog A) (h : Thrown -> Prog A) :
  Always PE PA p -> (forall e, Always PE PA (h e)) ->
  Always PE PA (tryCatch p h).
Proof.
  intros Hp Hh. induction p as [a | e | n k IH | k IH | rq k IH]; cbn in *.
  - auto.
  - auto.
  - destruct Hp as [H1 H2]. split; auto.
  - destruct Hp as [H1 H2]. split; auto.
  - destruct Hp as [H1 H2]. split; auto.
Qed.

Lemma Always_run {A : Type} (PE : Event -> Prop) (PA : A -> Prop) (w : World) (p : Prog A) :
  Always PE PA p ->
  forall tick,
    Forall PE (trace (run w tick p))
    /\ forall a, outcome (run w tick p) = Returns a -> PA a.
Proof.
  induction p as [a | e | h k IH | k IH | rq k IH]; cbn; intros Hp tick.
  - split; [constructor |]. intros a' H. now injection H as <-.
  - split; [constructor |]. intros a' H. discriminate H.
  - destruct Hp as [H1 H2]. destruct (IH H2 tick) as [Ht Ho]. split; auto.
  - destruct Hp as [H1 H2].
    destruct (IH (clock w tick) (H2 _) (S tick)) as [Ht Ho]. split; auto.
  - destruct Hp as [H1 H2].
    destruct (IH (network w tick rq) (H2 _) (S tick)) as [Ht Ho]. split; auto.
Qed.

Lemma AtMost_le {A : Type} (p : Prog A) :
  forall n m, n <= m -> AtMost n p -> AtMost m p.
Proof.
  induction p as [a | e | h k IH | k IH | rq k IH]; cbn; intros n m Hle Hp; auto.
  - eauto.
  - destruct n as [|n]; [contradiction |]. destruct m as [|m]; [lia |].
    intros t. apply (IH t n m); [lia | auto].
  - destruct n as [|n]; [contradiction |]. destruct m as [|m]; [lia |].
    intros o. apply (IH o n m); [lia | auto].
Qed.

Lemma AtMost_bind {A B : Type} (p : Prog A) (f : A -> Prog B) (m : nat) :
  (forall a, AtMost m (f a)) ->
  forall n, AtMost n p -> AtMost (n + m) (bind p f).
Proof.
  intros Hf. induction p as [a | e | h k IH | k IH | rq k IH]; cbn; intros n Hp.
  - apply (AtMost_le _ m); [lia | apply Hf].
  - trivial.
  - auto.
  - destruct n as [|n]; [contradiction |]. cbn. intros t. auto.
  - destruct n as [|n]; [contradiction |]. cbn. intros o. auto.
Qed.

Lemma AtMost_tryCatch {A : Type} (p : Prog A) (h : Thrown -> Prog A) (m : nat) :
  (forall e, AtMost m (h e)) ->
  forall n, AtMost n p -> AtMost (n + m) (tryCatch p h).
Proof.
  intros Hh. induction p as [a | e | x k IH | k IH | rq k IH]; cbn; intros n Hp.
  - trivial.
  - apply (AtMost_le _ m); [lia | apply Hh].
  - auto.
  - destruct n as [|n]; [contradiction |]. cbn. intros t. auto.
  - destruct n as [|n]; [contradiction |]. cbn. intros o. auto.
Qed.

Lemma AtMost_run {A : Type} (w : World) (p : Prog A) :
  forall n tick,
    AtMost n p ->
    ticks (run w tick p) <= tick + n
    /\ length (requestsOf (trace (run w tick p))) <= n.
Proof.
  induction p as [a | e | h k IH | k IH | rq k IH]; cbn; intros n tick Hp.
  - lia.
  - lia.
  - apply IH, Hp.
  - destruct n as [|n]; [contradiction |].
    destruct (IH (clock w tick) n (S tick) (Hp _)) as [H1 H2]. lia.
  - destruct n as [|n]; [contradiction |].
    destruct (IH (network w tick rq) n (S tick) (Hp _)) as [H1 H2]. cbn. lia.
Qed.

Lemma Pure_always {A : Type} (PE : Event -> Prop) (p : Prog A) :
  Pure p -> Always PE (fun _ => True) p.
Proof. apply Always_weaken; [intros e [] | trivial]. Qed.

Lemma Pure_bind {A B : Type} (p : Prog A) (f : A -> Prog B) :
  Pure p -> (forall a, Pure (f a)) -> Pure (bind p f).
Proof.
  intros Hp Hf. unfold Pure in *.
  apply (Always_bind _ (fun _ => True)); [exact Hp | intros a _; apply Hf].
Qed.

Lemma Always_bind_pure {A B : Type} (PE : Event -> Prop) (PB : B -> Prop)
      (p : Prog A) (f : A -> Prog B) :
  Pure p -> (forall a, Always PE PB (f a)) -> Always PE PB (bind p f).
Proof.
  intros Hp Hf.
  apply (Always_bind _ (fun _ => True)); [now apply Pure_always | intros a _; apply Hf].
Qed.

Lemma AtMost_bind_pure {A B : Type} (n : nat) (p : Prog A) (f : A -> Prog B) :
  Pure p -> (forall a, AtMost n (f a)) -> AtMost n (bind p f).
Proof.
  intros Hp Hf. induction p as [a | e | h k IH | k IH | rq k IH]; cbn in *;
    auto; destruct Hp as [[] _].
Qed.

Lemma Pure_AtMost {A : Type} (n : nat) (p : Prog A) : Pure p -> AtMost n p.
Proof.
  intros Hp. induction p as [a | e | h k IH | k IH | rq k IH]; cbn in *;
    auto; destruct Hp as [[] _].
Qed.

Lemma getProp_pure (v : JsVal) (k : string) : Pure (getProp v k).
Proof. destruct v; exact I. Qed.

Lemma replaceOn_pure (expr : string) (v : JsVal) (by_ : string) :
  Pure (replaceOn expr v by_).
Proof. destruct v; exact I. Qed.

Lemma convert_pure (v : JsVal) : Pure (convert v).
Proof. unfold convert. destruct (toString v); exact I. Qed.

Lemma joinOn_pure (expr : string) (v : JsVal) (sep : string) : Pure (joinOn expr v sep).
Proof. destruct v; try exact I. cbn [joinOn]. destruct (joinElems sep items); exact I. Qed.

Lemma forEachM_pure {S : Type} (f : S -> JsVal -> Prog S) (xs : list JsVal) :
  (forall s x, Pure (f s x)) -> forall s, Pure (forEachM f xs s).
Proof.
  intros Hf. induction xs as [|x xs IH]; intros s; [exact I |].
  cbn [forEachM]. apply Pure_bind; auto.
Qed.

Lemma forEach_pure {S : Type} (expr : string) (v : JsVal) (f : S -> JsVal -> Prog S) (s : S) :
  (forall s x, Pure (f s x)) -> Pure (forEach expr v f s).
Proof. intros Hf. destruct v; try exact I. now apply forEachM_pure. Qed.

(** Proves that a handler built from the helpers above has no event. *)
Ltac pure :=
  repeat first
    [ exact I
    | apply getProp_pure
    | apply convert_pure
    | apply replaceOn_pure
    | apply joinOn_pure
    | apply forEach_pure; intros
    | apply Pure_bind; [| intros ?]
    | match goal with
      | |- Pure (if ?c then _ else _) => destruct c
      | |- Pure (let _ := _ in _) => cbv zeta
      end ].

Lemma appendInstruction_pure (yaml : string) (instruction : JsVal) :
  Pure (appendInstruction yaml instruction).
Proof. unfold appendInstruction. pure. Qed.

Lemma appendEntries_pure (expr heading : string) (dirs : JsVal) (yaml : string) :
  Pure (appendEntries expr heading dirs yaml).
Proof. unfold appendEntries. pure. Qed.

Lemma generateCodeRabbitYaml_pure (config : JsVal) : Pure (generateCodeRabbitYaml config).
Proof.
  unfold generateCodeRabbitYaml. cbv zeta.
  apply Pure_bind; [pure | intros pathInstructions].
  apply Pure_bind.
  { destruct (truthy pathInstructions); [| exact I].
    apply forEach_pure. intros s x. apply appendInstruction_pure. }
  intros yaml. apply Pure_bind; [pure | intros tools].
  destruct (truthy _); [| exact I].
  repeat (apply Pure_bind; [first [apply getProp_pure | apply appendEntries_pure] | intros ?]).
  exact I.
Qed.

Lemma targetFilesSuffix_pure (targetFiles : JsVal) : Pure (targetFilesSuffix targetFiles).
Proof. unfold targetFilesSuffix. pure. Qed.

(** What each tool method may do and return, whatever its arguments. *)
Lemma generateReport_always (cfg : CodeRabbitConfig) (args : JsVal) :
  Always (handlerEvent cfg "generate_report") isTextResult (generateReport cfg args)
  /\ AtMost 1 (generateReport cfg args).
Proof.
  unfold generateReport. destruct (negb _); [split; exact I |]. split.
  - apply Always_tryCatch;
      [| intros [m | m r | v]; try exact I;
         apply Always_bind_pure; [apply convert_pure | intros text; exact I]].
    apply Always_bind_pure; [apply getProp_pure | intros from].
    apply Always_bind_pure; [apply getProp_pure | intros to].
    cbn. split; [left; eauto |]. intros [response | e]; cbn; [| exact I].
    eexists; reflexivity.
  - refine (AtMost_tryCatch _ _ 0 _ 1 _);
      [intros [m | m r | v]; try exact I;
       apply AtMost_bind_pure; [apply convert_pure | intros text; exact I] |].
    apply AtMost_bind_pure; [apply getProp_pure | intros from].
    apply AtMost_bind_pure; [apply getProp_pure | intros to].
    cbn. intros [response | e]; exact I.
Qed.

Lemma analyzePullRequest_always (cfg : CodeRabbitConfig) (args : JsVal) :
  Always (handlerEvent cfg "analyze_pull_request") isTextResult (analyzePullRequest args)
  /\ AtMost 1 (analyzePullRequest args).
Proof.
  unfold analyzePullRequest. split.
  - apply Always_bind_pure; [apply getProp_pure | intros repository].
    apply Always_bind_pure; [apply getProp_pure | intros pullRequest].
    cbn. split; [now left |]. intros t. eexists; reflexivity.
  - apply AtMost_bind_pure; [apply getProp_pure | intros repository].
    apply AtMost_bind_pure; [apply getProp_pure | intros pullRequest].
    cbn. trivial.
Qed.

Lemma createCustomReport_always (cfg : CodeRabbitConfig) (args : JsVal) :
  Always (handlerEvent cfg "create_custom_report") isTextResult (createCustomReport args)
  /\ AtMost 1 (createCustomReport args).
Proof.
  unfold createCustomReport. split.
  - do 3 (apply Always_bind_pure; [apply getProp_pure | intros ?]).
    cbn. split; [now right |]. intros t. eexists; reflexivity.
  - do 3 (apply AtMost_bind_pure; [apply getProp_pure | intros ?]).
    cbn. trivial.
Qed.

Lemma configureReviewSettings_pure (args : JsVal) :
  Always (fun _ => False) isTextResult (configureReviewSettings args).
Proof.
  unfold configureReviewSettings.
  apply Always_bind_pure; [apply getProp_pure | intros configuration].
  apply Always_bind_pure; [apply generateCodeRabbitYaml_pure | intros yaml].
  apply Always_bind_pure; [apply getProp_pure | intros repository].
  apply Always_bind_pure; [apply convert_pure | intros repositoryText].
  eexists; reflexivity.
Qed.

Lemma sendReviewCommand_pure (args : JsVal) :
  Always (fun _ => False) isTextResult (sendReviewCommand args).
Proof.
  unfold sendReviewCommand.
  apply Always_bind_pure; [apply getProp_pure | intros context].
  apply Always_bind_pure; [unfold commandMapping; pure | intros mapping].
  apply Always_bind_pure; [apply getProp_pure | intros commandKey].
  apply Always_bind_pure; [apply convert_pure | intros key]. cbv zeta.
  apply Always_bind_pure; [apply getProp_pure | intros targetFiles].
  apply Always_bind_pure; [apply targetFilesSuffix_pure | intros suffix].
  eexists; reflexivity.
Qed.

Lemma checkHealth_always (cfg : CodeRabbitConfig) (args : JsVal) :
  Always (handlerEvent cfg "check_health") isTextResult (checkHealth args)
  /\ AtMost 1 (checkHealth args).
Proof.
  unfold checkHealth. split.
  - apply Always_bind_pure; [apply getProp_pure | intros given]. cbv zeta.
    apply Always_tryCatch.
    + apply Always_bind_pure; [apply convert_pure | intros target].
      cbn [axiosRequest bind Always]. split; [right; eauto |].
      intros [response | e]; cbn [bind Always]; [| exact I].
      apply Always_bind_pure; [apply convert_pure | intros shownUrl].
      eexists; reflexivity.
    + intros e. apply Always_bind_pure; [apply convert_pure | intros shownUrl].
      eexists; reflexivity.
  - apply AtMost_bind_pure; [apply getProp_pure | intros given]. cbv zeta.
    refine (AtMost_tryCatch _ _ 0 _ 1 _).
    + intros e. apply AtMost_bind_pure; [apply convert_pure | intros shownUrl].
      exact I.
    + apply AtMost_bind_pure; [apply convert_pure | intros target].
      cbn [axiosRequest bind AtMost].
      intros [response | e]; cbn [bind AtMost]; [| exact I].
      apply AtMost_bind_pure; [apply convert_pure | intros shownUrl]. exact I.
Qed.

Lemma textual_pure (PE : Event -> Prop) (p : Prog JsVal) :
  Always (fun _ => False) isTextResult p -> Always PE isTextResult p /\ AtMost 1 p.
Proof.
  intros H. split.
  - revert H. apply Always_weaken; [intros e [] | trivial].
  - apply Pure_AtMost. revert H. apply Always_weaken; trivial.
Qed.

(** ** The router as a table *)

Lemma callTool_dispatch (cfg : CodeRabbitConfig) (name : string) (args : JsVal) :
  callTool cfg name args
  = tryCatch
      match dispatch cfg name args with
      | Some (h, p) => Invoke h p
      | None => Throw (JsError ("Unknown tool: " ++ name))
      end
      (fun error => Ret (routerError name error)).
Proof.
  unfold callTool, dispatch.
  repeat match goal with
         | |- context [if ?c then _ else _] => destruct c; [reflexivity |]
         end.
  reflexivity.
Qed.

Lemma run_callTool (cfg : CodeRabbitConfig) (name : string) (args : JsVal)
      (w : World) (tick : nat) :
  run w tick (handle cfg (CallTool name args))
  = match dispatch cfg name args with
    | Some (h, p) =>
        let r := run w tick p in
        {| outcome := match outcome r with
                      | Returns a => Returns a
                      | Throws e => Returns (routerError name e)
                      end;
           trace := EvInvoke h :: trace r;
           ticks := ticks r |}
    | None =>
        {| outcome := Returns (routerError name (JsError ("Unknown tool: " ++ name)));
           trace := [];
           ticks := tick |}
    end.
Proof.
  cbn [handle]. rewrite callTool_dispatch, run_tryCatch_ret.
  destruct (dispatch cfg name args) as [[h p] |]; reflexivity.
Qed.

Lemma dispatch_registered (cfg : CodeRabbitConfig) (name : string) (args : JsVal) :
  match dispatch cfg name args with
  | Some (h, p) =>
      In name toolNames
      /\ Always (handlerEvent cfg name) isTextResult p
      /\ AtMost 1 p
  | None => ~ In name toolNames
  end.
Proof.
  unfold dispatch. rewrite toolNames_eq.
  destruct (String.eqb_spec name "generate_report") as [-> | N1].
  { split; [simpl; tauto | apply generateReport_always]. }
  destruct (String.eqb_spec name "analyze_pull_request") as [-> | N2].
  { split; [simpl; tauto | apply analyzePullRequest_always]. }
  destruct (String.eqb_spec name "configure_review_settings") as [-> | N3].
  { split; [simpl; tauto | apply textual_pure, configureReviewSettings_pure]. }
  destruct (String.eqb_spec name "send_review_command") as [-> | N4].
  { split; [simpl; tauto | apply textual_pure, sendReviewCommand_pure]. }
  destruct (String.eqb_spec name "check_health") as [-> | N5].
  { split; [simpl; tauto | apply checkHealth_always]. }
  destruct (String.eqb_spec name "create_custom_report") as [-> | N6].
  { split; [simpl; tauto | apply createCustomReport_always]. }
  simpl. intros [H | [H | [H | [H | [H | [H | []]]]]]]; congruence.
Qed.

Lemma handlerEvent_trace (cfg : CodeRabbitConfig) (name : string) (t : list Event) :
  Forall (handlerEvent cfg name) t ->
  invokedOf t = []
  /\ Forall (fun rq =>
               (name = "generate_report" /\ exists from to, rq = reportRequest cfg from to)
               \/ (name = "check_health" /\ exists agentUrl, rq = healthRequest agentUrl))
            (requestsOf t)
  /\ (In EvClock t -> name = "analyze_pull_request" \/ name = "create_custom_report").
Proof.
  induction 1 as [|e t He Ht (IH1 & IH2 & IH3)].
  { split; [reflexivity |]. split; [constructor | intros []]. }
  destruct e as [h | | rq]; cbn in *.
  - contradiction.
  - repeat split; auto.
  - repeat split; auto. intros [H | H]; [discriminate H | auto].
Qed.


(** X2: the router and the registry agree: a tool method is entered
    exactly when the requested name is one of the listed tool names, and
    then exactly one method is entered, once. *)
Theorem dispatch_matches_registry :
  forall (cfg : CodeRabbitConfig) (w : World) (tick : nat) (name : string) (args : JsVal),
    let r := run w tick (handle cfg (CallTool name args)) in
    (In name toolNames <-> exists h, invokedOf (trace r) = [h])
    /\ (~ In name toolNames <-> invokedOf (trace r) = []).
Proof.
  intros cfg w tick name args. cbv zeta. rewrite run_callTool.
  pose proof (dispatch_registered cfg name args) as Hd.
  destruct (dispatch cfg name args) as [[h p] |].
  - destruct Hd as (Hin & Halways & _).
    destruct (Always_run _ _ w p Halways tick) as [Ht _].
    apply handlerEvent_trace in Ht as (Hinv & _). cbn. rewrite Hinv.
    split; split; intros H; try discriminate H; eauto. contradiction.
  - cbn. split; split; intros H; auto; try contradiction.
    destruct H as [h H]. discriminate H.
Qed.

(** X3: what a tool call may do, by tool.  It reads the clock or awaits a
    request at most once.  A request is sent only by [generate_report], and
    then it is the POST to the report endpoint, or by [check_health], and
    then it is the bare GET probe (no header, so the API key never goes to
    the agent address); the clock is read only by the two synthetic
    reports. *)
Theorem tool_effects_by_name :
  forall (cfg : CodeRabbitConfig) (w : World) (tick : nat) (name : string) (args : JsVal),
    let r := run w tick (handle cfg (CallTool name args)) in
    ticks r <= tick + 1
    /\ length (requestsOf (trace r)) <= 1
    /\ Forall (fun rq =>
                 (name = "generate_report"
                  /\ exists from to, rq = reportRequest cfg from to)
                 \/ (name = "check_health"
                     /\ exists agentUrl, rq = healthRequest agentUrl))
              (requestsOf (trace r))
    /\ (In EvClock (trace r) ->
        name = "analyze_pull_request" \/ name = "create_custom_report").
Proof.
  intros cfg w tick name args. cbv zeta. rewrite run_callTool.
  pose proof (dispatch_registered cfg name args) as Hd.
  destruct (dispatch cfg name args) as [[h p] |].
  - destruct Hd as (_ & Halways & Hmost).
    destruct (Always_run _ _ w p Halways tick) as [Ht _].
    apply handlerEvent_trace in Ht as (_ & Hreq & Hclock).
    destruct (AtMost_run w p 1 tick Hmost) as [Hticks Hlen]. cbn.
    split; [exact Hticks |]. split; [exact Hlen |]. split; [exact Hreq |].
    intros [H | H]; [discriminate H | auto].
  - cbn. split; [lia |]. split; [lia |]. split; [constructor | intros []].
Qed.

(** X4: a call-tool request without arguments is always answered by an
    error-shaped result, for every tool name, and nothing happens: no
    clock reading, no request. *)
Theorem call_without_arguments_is_error :
  forall (cfg : CodeRabbitConfig) (w : World) (tick : nat) (name : string),
    let r := run w tick (handle cfg (CallTool name VUndefined)) in
    (exists t, outcome r = Returns (errorContent ("Error executing " ++ name ++ ": " ++ t)))
    /\ requestsOf (trace r) = []
    /\ ticks r = tick.
Proof.
  intros cfg w tick name. cbv zeta. rewrite run_callTool. unfold dispatch.
  repeat match goal with
         | |- context [if name =? ?k then _ else _] => destruct (name =? k)
         end;
    try (split; [eexists; reflexivity | split; reflexivity]).
  unfold generateReport. destruct (negb _);
    (split; [eexists; reflexivity | split; reflexivity]).
Qed.

(** X5: reading a resource succeeds exactly for the listed URIs, with the
    MIME type the listing declares; for any other URI the handler throws
    "Unknown resource: <uri>" (it has no catch of its own).  Either way
    nothing else happens. *)
Theorem readResource_succeeds_iff_listed :
  forall (cfg : CodeRabbitConfig) (w : World) (tick : nat) (uri : string),
    let r := run w tick (handle cfg (ReadResource uri)) in
    trace r = [] /\ ticks r = tick
    /\ (In uri resourceUris ->
        exists body, outcome r = Returns (resourceContents uri (declaredMimeType uri) body))
    /\ (~ In uri resourceUris ->
        outcome r = Throws (JsError ("Unknown resource: " ++ uri))).
Proof.
  intros cfg w tick uri. cbv zeta. cbn [handle]. unfold readResource.
  rewrite resourceUris_eq.
  destruct (String.eqb_spec uri "coderabbit://config/sample") as [-> | N1].
  { repeat split; [eexists; reflexivity | intros H; exfalso; apply H; simpl; tauto]. }
  destruct (String.eqb_spec uri "coderabbit://commands/help") as [-> | N2].
  { repeat split; [eexists; reflexivity | intros H; exfalso; apply H; simpl; tauto]. }
  destruct (String.eqb_spec uri "coderabbit://tools/astgrep") as [-> | N3].
  { repeat split; [eexists; reflexivity | intros H; exfalso; apply H; simpl; tauto]. }
  destruct (String.eqb_spec uri "coderabbit://env/template") as [-> | N4].
  { repeat split; [eexists; reflexivity | intros H; exfalso; apply H; simpl; tauto]. }
  repeat split. simpl. intros [H | [H | [H | [H | []]]]]; congruence.
Qed.

(** ** Review commands, continued *)

(** What [sendReviewCommand] does on an argument object whose context and
    command convert to strings. *)
Lemma sendReviewCommand_convertible (props : list (string * JsVal)) (c key : string) :
  toString (lookup "context" props) = Some c ->
  toString (lookup "command" props) = Some key ->
  exists rule given,
    sendReviewCommand (obj props)
    = (suffix <- targetFilesSuffix (lookup "targetFiles" props) ;;
       Ret (textContent
              (commandText (propertyToString (mappingAt (mappingFor rule given) key))
                           suffix))).
Proof.
  intros Hc Hk. destruct (commandMapping_convertible _ _ Hc) as (rule & given & Hm).
  exists rule, given. unfold sendReviewCommand, obj, convert.
  cbn [getProp bind]. rewrite Hm. cbn [bind]. rewrite Hk. reflexivity.
Qed.





(** Converting an array is joining its elements with commas. *)
Lemma toString_array (xs : list JsVal) : toString (VArr xs) = joinElems "," xs.
Proof.
  induction xs as [|x xs IH]; [reflexivity |].
  unfold joinElems in *. cbn [toString elementTexts] in *.
  destruct x; reflexivity.
Qed.

Lemma includes_join (sep f : string) (parts : list string) :
  In f parts -> includes f (join sep parts) = true.
Proof.
  induction parts as [|p rest IH]; intros Hin; [destruct Hin |].
  destruct rest as [|p' rest'].
  - destruct Hin as [-> | []]. apply includes_self.
  - change (join sep (p :: p' :: rest')) with (p ++ sep ++ join sep (p' :: rest')).
    destruct Hin as [-> | Hin]; [apply includes_here |].
    do 2 apply includes_after. now apply IH.
Qed.

Lemma elementTexts_string (f : string) (xs : list JsVal) :
  forall texts, elementTexts xs = Some texts -> In (VStr f) xs -> In f texts.
Proof.
  induction xs as [|x xs IH]; intros texts Ht Hin; [destruct Hin |].
  cbn [elementTexts] in Ht.
  destruct (elementText x) as [t |] eqn:Ex; [| discriminate Ht].
  destruct (elementTexts xs) as [rest |]; [| discriminate Ht].
  injection Ht as <-. destruct Hin as [-> | Hin].
  - cbn in Ex. injection Ex as <-. now left.
  - right. now apply IH.
Qed.

Lemma includes_joinElems (sep f joined : string) (xs : list JsVal) :
  joinElems sep xs = Some joined -> In (VStr f) xs -> includes f joined = true.
Proof.
  unfold joinElems. intros Hj Hin.
  destruct (elementTexts xs) as [texts |] eqn:Et; [| discriminate Hj].
  injection Hj as <-. apply includes_join. now apply (elementTexts_string f xs).
Qed.

(** X8: given an argument object whose context and command convert to
    strings, [send_review_command] fails exactly when [targetFiles] is
    truthy and not an array (a single file name given as a string, say),
    or is an array with an element that cannot be converted to a string;
    the router then answers with an error.  When it is an array whose
    elements convert, the joined names, and so every file name given as a
    string, appear in the result text. *)
Theorem targetFiles_decides_failure :
  forall (cfg : CodeRabbitConfig) (w : World) (tick : nat)
         (props : list (string * JsVal)) (c key : string),
    toString (lookup "context" props) = Some c ->
    toString (lookup "command" props) = Some key ->
    let r := run w tick (handle cfg (CallTool "send_review_command" (obj props))) in
    let targetFiles := lookup "targetFiles" props in
    ((exists result, outcome r = Returns result /\ isError result = true)
     <-> ((truthy targetFiles = true /\ forall files, targetFiles <> VArr files)
          \/ exists files, targetFiles = VArr files /\ joinElems ", " files = None))
    /\ (forall files joined,
           targetFiles = VArr files ->
           joinElems ", " files = Some joined ->
           exists text,
             outcome r = Returns (textContent text)
             /\ includes joined text = true
             /\ forall f, In (VStr f) files -> includes f text = true).
Proof.
  intros cfg w tick props c key Hc Hk. cbv zeta.
  unfold handle, callTool. cbn [String.eqb Ascii.eqb Bool.eqb].
  rewrite (run_tryCatch_ret w _ (routerError "send_review_command")).
  cbn [run outcome].
  destruct (sendReviewCommand_convertible props c key Hc Hk) as (rule & given & ->).
  destruct (lookup "targetFiles" props) as [ | | b | t | s | files | ps] eqn:E;
    unfold targetFilesSuffix; cbn [truthy joinOn bind run outcome].
  - split; [| intros files joined H; discriminate H].
    split; [intros (result & H & He); injection H as <-; discriminate He
           | intros [[H _] | (files & H & _)]; discriminate H].
  - split; [| intros files joined H; discriminate H].
    split; [intros (result & H & He); injection H as <-; discriminate He
           | intros [[H _] | (files & H & _)]; discriminate H].
  - split; [| intros files joined H; discriminate H].
    destruct b; cbn [bind run outcome joinOn].
    + split; [intros _; left; split; [reflexivity | discriminate]
             | intros _; eexists; split; reflexivity].
    + split; [intros (result & H & He); injection H as <-; discriminate He
             | intros [[H _] | (files & H & _)]; discriminate H].
  - split; [| intros files joined H; discriminate H].
    destruct (negb (t =? "0")); cbn [bind run outcome joinOn].
    + split; [intros _; left; split; [reflexivity | discriminate]
             | intros _; eexists; split; reflexivity].
    + split; [intros (result & H & He); injection H as <-; discriminate He
             | intros [[H _] | (files & H & _)]; discriminate H].
  - split; [| intros files joined H; discriminate H].
    destruct (negb (s =? "")); cbn [bind run outcome joinOn].
    + split; [intros _; left; split; [reflexivity | discriminate]
             | intros _; eexists; split; reflexivity].
    + split; [intros (result & H & He); injection H as <-; discriminate He
             | intros [[H _] | (files & H & _)]; discriminate H].
  - destruct (joinElems ", " files) as [joined |] eqn:Ej; cbn [bind run outcome].
    + split.
      * split; [intros (result & H & He); injection H as <-; discriminate He |].
        intros [[_ H] | (files' & H & Hj)]; [exfalso; now apply (H files) |].
        injection H as <-. rewrite Ej in Hj. discriminate Hj.
      * intros files' joined' H Hj. injection H as <-.
        rewrite Ej in Hj. injection Hj as <-.
        eexists. split; [reflexivity |].
        assert (Hin : includes joined
                        (commandText
                           (propertyToString (mappingAt (mappingFor rule given) key))
                           (nl ++ nl ++ "Target files: " ++ joined)) = true)
          by (unfold commandText; do 8 apply includes_after; apply includes_self).
        split; [exact Hin |].
        intros f Hf. unfold commandText. do 8 apply includes_after.
        now apply (includes_joinElems ", " f joined files).
    + split.
      * split; [intros _; right; eauto | intros _; eexists; split; reflexivity].
      * intros files' joined' H Hj. injection H as <-.
        rewrite Ej in Hj. discriminate Hj.
  - split; [| intros files joined H; discriminate H].
    split; [intros _; left; split; [reflexivity | discriminate]
           | intros _; eexists; split; reflexivity].
Qed.

Lemma targetFiles_decides_failure_witness :
  exists result,
    outcome (run {| clock := fun _ => ""; network := fun _ _ => Rejected (JsError "offline") |}
                 0
                 (handle (config None)
                    (CallTool "send_review_command"
                       (obj [("command", str "clarify suggestion");
                             ("targetFiles", str "src/a.ts")]))))
    = Returns result
    /\ isError result = true.
Proof.
  exact (proj2 (proj1 (targetFiles_decides_failure
           (config None)
           {| clock := fun _ => ""; network := fun _ _ => Rejected (JsError "offline") |} 0
           [("command", str "clarify suggestion"); ("targetFiles", str "src/a.ts")]
           "undefined" "clarify suggestion" eq_refl eq_refl))
         (or_introl (conj eq_refl
                       (fun files (H : str "src/a.ts" = VArr files) =>
                          eq_ind (str "src/a.ts")
                                 (fun v => match v with VStr _ => True | _ => False end)
                                 I _ H)))).
Defined.

(** ** Report generation and health check, continued *)

(** A rejected request never completes [generateReport] normally. *)
Lemma reportCompletion_rejected (e : Thrown) :
  exists e', reportCompletion (Rejected e) = Throws e'.
Proof.
  destruct e as [m | m response | v]; cbn [reportCompletion];
    try (eexists; reflexivity).
  destruct (toString _); eexists; reflexivity.
Qed.

(** X9: given an argument object, a [generate_report] call succeeds
    exactly when an API key is configured and the upstream request
    resolves; the result then holds the upstream body, pretty-printed.
    In every other case the result is error-shaped. *)
Theorem generate_report_succeeds_iff :
  forall (cfg : CodeRabbitConfig) (w : World) (tick : nat) (props : list (string * JsVal)),
    let r := run w tick (handle cfg (CallTool "generate_report" (obj props))) in
    let rq := reportRequest cfg (lookup "from" props) (lookup "to" props) in
    ((exists result, outcome r = Returns result /\ isError result = false)
     <-> (apiKey cfg <> "" /\ exists response, network w tick rq = Resolved response))
    /\ (forall response,
           apiKey cfg <> "" -> network w tick rq = Resolved response ->
           outcome r = Returns (textContent
                                  ("CodeRabbit Report Generated Successfully" ++ nl ++ nl
                                     ++ stringify2 (data response)))).
Proof.
  intros cfg w tick props. cbv zeta. rewrite run_callTool_generate_report.
  destruct (String.eqb_spec (apiKey cfg) "") as [Hk | Hk].
  - rewrite (run_generateReport_without_key _ _ _ _ Hk). cbn. split.
    + split; [intros (result & H & He); injection H as <-; discriminate He
             | intros [H _]; contradiction].
    + intros response H; contradiction.
  - rewrite (run_generateReport_with_key _ _ _ _ Hk). cbv zeta. cbn [outcome].
    destruct (network w tick _) as [response | e] eqn:E.
    + cbn [reportCompletion].
      split; [| intros response' _ H; injection H as <-; reflexivity].
      split; [intros _; split; [exact Hk | eauto]
             | intros _; eexists; split; reflexivity].
    + destruct (reportCompletion_rejected e) as [e' ->].
      split; [| intros response' _ H; discriminate H].
      split; [| intros [_ [response H]]; discriminate H].
      intros (result & H & He). injection H as <-. discriminate He.
Qed.

(** X10: given an argument object, [check_health] probes the agent once
    when the agent URL converts to a string: its only effect is the GET of
    [<agentUrl>/health] with a five-second timeout and no header; when the
    URL cannot be converted it sends nothing and throws.  A falsy
    [agentUrl] (absent, empty, null, false, zero) means the loopback
    address [http://127.0.0.1:8080]; a truthy one is used as it is. *)
Theorem checkHealth_probe_target :
  forall (w : World) (tick : nat) (props : list (string * JsVal)),
    let r := run w tick (checkHealth (obj props)) in
    let given := lookup "agentUrl" props in
    match toString (agentUrlOf props) with
    | Some u =>
        exists rq,
          trace r = [EvHttp rq]
          /\ method rq = GET /\ url rq = u ++ "/health"
          /\ timeout rq = Some 5000%Z /\ headers rq = [] /\ body rq = None
    | None => trace r = [] /\ outcome r = Throws cannotConvert
    end
    /\ (truthy given = false -> toString (agentUrlOf props) = Some "http://127.0.0.1:8080")
    /\ (truthy given = true -> toString (agentUrlOf props) = toString given).
Proof.
  intros w tick props. cbv zeta. split.
  - destruct (toString (agentUrlOf props)) as [u |] eqn:Hu.
    + rewrite (run_checkHealth_convertible _ _ _ _ Hu).
      eexists. repeat split.
    + rewrite (run_checkHealth_inconvertible _ _ _ Hu). split; reflexivity.
  - unfold agentUrlOf, or_else. split; intros ->; reflexivity.
Qed.

(** X11: given an argument object whose agent URL converts to a string,
    the verdict follows the probe: the result reads "Healthy", with the
    response status, exactly when the request resolved, and "Unhealthy"
    exactly when it was rejected; it is never error-shaped. *)
Theorem checkHealth_verdict :
  forall (w : World) (tick : nat) (props : list (string * JsVal)) (u : string),
    toString (agentUrlOf props) = Some u ->
    let answer := network w tick (healthRequest u) in
    exists text : string,
      outcome (run w tick (checkHealth (obj props))) = Returns (textContent text)
      /\ isError (textContent text) = false
      /\ (startsWith ("CodeRabbit Agent Health Check" ++ nl ++ nl ++ "Status: ✅ Healthy")
                     text = true
          <-> exists response, answer = Resolved response)
      /\ (startsWith ("CodeRabbit Agent Health Check" ++ nl ++ nl ++ "Status: ❌ Unhealthy")
                     text = true
          <-> exists e, answer = Rejected e)
      /\ (forall response,
             answer = Resolved response ->
             includes ("Response: " ++ decimal (status response) ++ " "
                         ++ statusText response) text = true).
Proof.
  intros w tick props u Hu. cbv zeta. rewrite (run_checkHealth_convertible _ _ _ _ Hu).
  eexists. split; [reflexivity |]. split; [reflexivity |].
  destruct (network w tick _) as [response | e]; unfold healthText.
  - split; [split; [eauto | reflexivity] |].
    split; [split; [intros H; discriminate H | intros [e H]; discriminate H] |].
    intros response' H. injection H as <-. locate.
  - split; [split; [intros H; discriminate H | intros [x H]; discriminate H] |].
    split; [split; [eauto | reflexivity] |].
    intros response' H. discriminate H.
Qed.

Lemma checkHealth_verdict_witness :
  exists text : string,
    outcome (run {| clock := fun _ => "";
                    network := fun _ _ => Resolved {| status := 200; statusText := "OK";
                                                     data := VNull |} |} 0
                 (checkHealth (obj [])))
    = Returns (textContent text)
    /\ isError (textContent text) = false
    /\ startsWith ("CodeRabbit Agent Health Check" ++ nl ++ nl ++ "Status: ✅ Healthy")
                  text = true.
Proof.
  destruct (checkHealth_verdict
              {| clock := fun _ => "";
                 network := fun _ _ => Resolved {| status := 200; statusText := "OK";
                                                  data := VNull |} |}
              0 [] "http://127.0.0.1:8080" eq_refl)
    as (text & H1 & H2 & H3 & _).
  exists text. split; [exact H1 |]. split; [exact H2 |].
  apply H3. eexists; reflexivity.
Defined.

(** ** Custom report *)

Lemma membersOf_app (step : string) (a b : list (string * JsVal)) :
  membersOf step (a ++ b)%list = (membersOf step a ++ membersOf step b)%list.
Proof.
  induction a as [|[k x] a IH]; [reflexivity |].
  cbn [List.app membersOf]. destruct (stringify step x); cbn [List.app]; now rewrite IH.
Qed.

(** A printed object is the quoted text of a string member between two
    texts that do not depend on it, when a member follows it. *)
Lemma stringify2_field_shape (pre tail : list (string * JsVal)) (k : string) :
  membersOf ("" ++ "  ") tail <> [] ->
  exists P S : string, forall t,
    stringify2 (VObj (pre ++ (k, str t) :: tail)%list) = P ++ quoteJSON t ++ S.
Proof.
  intros Htail.
  pose (step := "" ++ "  ").
  pose (sep := "," ++ nl ++ step).
  fold step in Htail.
  destruct (membersOf step tail) as [|y after] eqn:E; [congruence |].
  exists ("{" ++ nl ++ step
              ++ concatStrings (map (fun a => a ++ sep) (membersOf step pre))
              ++ quoteJSON k ++ ": ").
  exists (sep ++ join sep (y :: after) ++ nl ++ "" ++ "}").
  intros t. unfold stringify2. rewrite stringify_VObj. fold step.
  rewrite membersOf_app. cbn [membersOf stringify str]. rewrite E.
  rewrite braces_nonempty by (destruct (membersOf step pre); discriminate).
  fold step. fold sep. rewrite join_middle.
  now rewrite !append_assoc.
Qed.

Lemma stringify2_reportData_timestamp (template dateRange filters : JsVal) (t1 t2 : string) :
  stringify2 (reportDataOf template dateRange filters t1)
  = stringify2 (reportDataOf template dateRange filters t2) ->
  t1 = t2.
Proof.
  destruct (stringify2_field_shape
              [("template", template); ("dateRange", dateRange);
               ("filters", or_else filters (obj []))]
              [("summary", obj [("totalPullRequests", num "42");
                                ("mergedPullRequests", num "38");
                                ("openPullRequests", num "4");
                                ("averageReviewTime", str "2.3 days");
                                ("topReviewers", strs ["alice"; "bob"; "charlie"])])]
              "generatedAt") as (P & S & Hshape); [discriminate |].
  unfold reportDataOf, obj. cbn [List.app] in Hshape. rewrite !Hshape. intros H.
  apply append_cancel_l, append_cancel_r in H. now apply quoteJSON_injective.
Qed.

Lemma run_createCustomReport_object props w tick :
  run w tick (createCustomReport (obj props))
  = {| outcome := Returns (textContent
                    ("Custom CodeRabbit Report" ++ nl ++ nl
                       ++ stringify2 (reportDataOf (lookup "template" props)
                                                   (lookup "dateRange" props)
                                                   (lookup "filters" props)
                                                   (clock w tick))));
       trace := [EvClock];
       ticks := S tick |}.
Proof. reflexivity. Qed.

(** X12: the custom report is fixed by [template], [dateRange], [filters]
    and the clock reading of the call, where a falsy [filters] (absent,
    null, false, empty string, zero) counts as the empty object: two calls
    that agree on these arguments get the same payload exactly when their
    clock readings agree.  The handler reads the clock once and sends no
    request. *)
Theorem custom_report_fixed_by_arguments_and_clock :
  forall (props1 props2 : list (string * JsVal)) (w1 w2 : World) (t1 t2 : nat),
    lookup "template" props1 = lookup "template" props2 ->
    lookup "dateRange" props1 = lookup "dateRange" props2 ->
    or_else (lookup "filters" props1) (obj []) = or_else (lookup "filters" props2) (obj []) ->
    (outcome (run w1 t1 (createCustomReport (obj props1)))
     = outcome (run w2 t2 (createCustomReport (obj props2)))
     <-> clock w1 t1 = clock w2 t2)
    /\ trace (run w1 t1 (createCustomReport (obj props1))) = [EvClock].
Proof.
  intros props1 props2 w1 w2 t1 t2 Htemplate Hrange Hfilters.
  rewrite !run_createCustomReport_object. cbn [outcome trace].
  split; [| reflexivity].
  assert (E : forall t, reportDataOf (lookup "template" props1) (lookup "dateRange" props1)
                                     (lookup "filters" props1) t
                        = reportDataOf (lookup "template" props2) (lookup "dateRange" props2)
                                       (lookup "filters" props2) t).
  { intros t. unfold reportDataOf. now rewrite Htemplate, Hrange, Hfilters. }
  rewrite E. split.
  - intros H. injection H as H.
    now apply stringify2_reportData_timestamp in H.
  - intros ->. reflexivity.
Qed.

Lemma custom_report_fixed_by_arguments_and_clock_witness :
  outcome (run {| clock := fun _ => "2024-01-01T00:00:00.000Z";
                  network := fun _ _ => Rejected (JsError "offline") |} 0
               (createCustomReport
                  (obj [("template", str "weekly");
                        ("dateRange", obj [("from", str "2024-01-01");
                                           ("to", str "2024-01-07")])])))
  = outcome (run {| clock := fun _ => "2024-01-01T00:00:00.000Z";
                    network := fun _ _ => Rejected (JsError "offline") |} 3
                 (createCustomReport
                    (obj [("template", str "weekly");
                          ("filters", VNull);
                          ("dateRange", obj [("from", str "2024-01-01");
                                             ("to", str "2024-01-07")])]))).
Proof.
  exact (proj2 (proj1 (custom_report_fixed_by_arguments_and_clock
           [("template", str "weekly");
            ("dateRange", obj [("from", str "2024-01-01"); ("to", str "2024-01-07")])]
           [("template", str "weekly");
            ("filters", VNull);
            ("dateRange", obj [("from", str "2024-01-01"); ("to", str "2024-01-07")])]
           {| clock := fun _ => "2024-01-01T00:00:00.000Z";
              network := fun _ _ => Rejected (JsError "offline") |}
           {| clock := fun _ => "2024-01-01T00:00:00.000Z";
              network := fun _ _ => Rejected (JsError "offline") |}
           0 3 eq_refl eq_refl eq_refl)) eq_refl).
Defined.

(** ** Review configuration, continued *)

Lemma appendInstruction_outcome (yaml : string) (instruction : JsVal) :
  if printableInstruction instruction
  then exists out, appendInstruction yaml instruction = Ret out
  else exists e, appendInstruction yaml instruction = Throw e.
Proof.
  unfold appendInstruction, printableInstruction, convert.
  destruct instruction as [ | | b | t | s | xs | props];
    cbn [getProp bind replaceOn toString];
    try (eexists; reflexivity).
  destruct (toString (lookup "path" props)); cbn [bind getProp];
    [| eexists; reflexivity].
  destruct (lookup "instructions" props); cbn [replaceOn bind]; eexists; reflexivity.
Qed.

Lemma forEachM_instructions_outcome (xs : list JsVal) :
  forall yaml,
    if forallb printableInstruction xs
    then exists out, forEachM appendInstruction xs yaml = Ret out
    else exists e, forEachM appendInstruction xs yaml = Throw e.
Proof.
  induction xs as [|x xs IH]; intros yaml; cbn [forallb forEachM].
  - eexists; reflexivity.
  - pose proof (appendInstruction_outcome yaml x) as Hx.
    destruct (printableInstruction x); cbn [andb].
    + destruct Hx as [out ->]. cbn [bind]. apply IH.
    + destruct Hx as [e ->]. eexists; reflexivity.
Qed.

(** X13: path instructions are printed all or not at all.  For a
    repository name that converts to a string and a configuration whose
    [pathInstructions] is an array (and that has no ast-grep settings),
    [configure_review_settings] succeeds exactly when every entry is an
    object whose [path] converts to a string and whose [instructions] is a
    string; a single entry that is not makes the whole call fail with an
    error-shaped result. *)
Theorem path_instructions_all_or_nothing :
  forall (cfg : CodeRabbitConfig) (w : World) (tick : nat)
         (args cprops : list (string * JsVal)) (xs : list JsVal) (repository : string),
    lookup "configuration" args = VObj cprops ->
    toString (lookup "repository" args) = Some repository ->
    lookup "pathInstructions" cprops = VArr xs ->
    truthy (getPropOpt (lookup "tools" cprops) "astGrep") = false ->
    let r := run w tick (handle cfg (CallTool "configure_review_settings" (obj args))) in
    ((exists result, outcome r = Returns result /\ isError result = false)
     <-> forallb printableInstruction xs = true)
    /\ ((exists result, outcome r = Returns result /\ isError result = true)
        <-> forallb printableInstruction xs = false).
Proof.
  intros cfg w tick args cprops xs repository Hconf Hrepo Hpath Htools. cbv zeta.
  unfold handle, callTool. cbn [String.eqb Ascii.eqb Bool.eqb].
  rewrite (run_tryCatch_ret w _ (routerError "configure_review_settings")).
  cbn [run outcome].
  unfold configureReviewSettings, obj. cbn [getProp bind]. rewrite Hconf.
  unfold generateCodeRabbitYaml. cbn [getProp bind]. rewrite Hpath.
  cbn [truthy forEach].
  match goal with
  | |- context [forEachM appendInstruction xs ?y] =>
      pose proof (forEachM_instructions_outcome xs y) as Hx
  end.
  destruct (forallb printableInstruction xs).
  - destruct Hx as [out ->]. cbn [bind]. rewrite Htools.
    cbn [bind]. unfold convert. rewrite Hrepo. cbn [bind run outcome].
    split; split; intros H; try discriminate H; try reflexivity.
    + eexists; split; reflexivity.
    + destruct H as (result & H & He). injection H as <-. discriminate He.
  - destruct Hx as [e ->]. cbn [bind run outcome].
    split; split; intros H; try discriminate H; try reflexivity.
    + destruct H as (result & H & He). injection H as <-. discriminate He.
    + eexists; split; reflexivity.
Qed.

Lemma path_instructions_all_or_nothing_witness :
  exists result,
    outcome (run {| clock := fun _ => ""; network := fun _ _ => Rejected (JsError "offline") |}
                 0
                 (handle (config None)
                    (CallTool "configure_review_settings"
                       (obj [("repository", str "o/r");
                             ("configuration",
                              obj [("pathInstructions",
                                    arr [obj [("path", str "a"); ("instructions", str "x")];
                                         obj [("path", str "b")]])])]))))
    = Returns result
    /\ isError result = true.
Proof.
  exact (proj2 (proj2 (path_instructions_all_or_nothing
           (config None)
           {| clock := fun _ => ""; network := fun _ _ => Rejected (JsError "offline") |} 0
           [("repository", str "o/r");
            ("configuration",
             obj [("pathInstructions",
                   arr [obj [("path", str "a"); ("instructions", str "x")];
                        obj [("path", str "b")]])])]
           [("pathInstructions",
             arr [obj [("path", str "a"); ("instructions", str "x")];
                  obj [("path", str "b")]])]
           [obj [("path", str "a"); ("instructions", str "x")]; obj [("path", str "b")]]
           "o/r" eq_refl eq_refl eq_refl eq_refl)) eq_refl).
Defined.







(** X15: how [generate_report] reports a failed upstream request (API key
    configured, argument object given).  An axios error becomes
    "API Error: <status> - <message>", with the status of the response, or
    "undefined" when there was none, and the message of the response body
    when it has a truthy one, else the message of the error; when that
    body message cannot be converted to a string the conversion error is
    reported instead.  Any other error passes through with its own
    message.  The result is always error-shaped and starts with
    "Error executing generate_report: ". *)
Theorem upstream_failure_is_reported :
  forall (cfg : CodeRabbitConfig) (w : World) (tick : nat)
         (props : list (string * JsVal)) (e : Thrown),
    apiKey cfg <> "" ->
    network w tick (reportRequest cfg (lookup "from" props) (lookup "to" props))
    = Rejected e ->
    outcome (run w tick (handle cfg (CallTool "generate_report" (obj props))))
    = Returns (errorContent
                 ("Error executing generate_report: "
                    ++ match e with
                       | AxiosError message (Some response) =>
                           let given := getPropOpt (data response) "message" in
                           if truthy given
                           then match toString given with
                                | Some text =>
                                    "API Error: " ++ decimal (status response) ++ " - "
                                      ++ text
                                | None => "Cannot convert object to primitive value"
                                end
                           else "API Error: " ++ decimal (status response) ++ " - "
                                  ++ message
                       | AxiosError message None =>
                           "API Error: undefined - " ++ message
                       | JsError message => message
                       | ThrownValue _ => "Unknown error"
                       end)).
Proof.
  intros cfg w tick props e Hk Hnet.
  rewrite run_callTool_generate_report, (run_generateReport_with_key _ _ _ _ Hk).
  cbv zeta. cbn [outcome]. rewrite Hnet.
  destruct e as [m | m [response |] | v]; cbn [reportCompletion]; try reflexivity.
  unfold responseStatus, responseDataMessage, or_else.
  destruct (truthy _); [| reflexivity].
  destruct (toString _); reflexivity.
Qed.

Lemma upstream_failure_is_reported_witness :
  outcome (run {| clock := fun _ => "";
                  network := fun _ _ =>
                    Rejected (AxiosError "Request failed with status code 401"
                                (Some {| status := 401; statusText := "Unauthorized";
                                         data := obj [("message", str "invalid key")] |})) |}
               0
               (handle (config (Some "cr-key"))
                  (CallTool "generate_report"
                     (obj [("from", str "2024-01-01"); ("to", str "2024-01-31")]))))
  = Returns (errorContent "Error executing generate_report: API Error: 401 - invalid key").
Proof.
  exact (upstream_failure_is_reported
           (config (Some "cr-key"))
           {| clock := fun _ => "";
              network := fun _ _ =>
                Rejected (AxiosError "Request failed with status code 401"
                            (Some {| status := 401; statusText := "Unauthorized";
                                     data := obj [("message", str "invalid key")] |})) |}
           0
           [("from", str "2024-01-01"); ("to", str "2024-01-31")]
           _
           ltac:(discriminate) eq_refl).
Defined.
